(** * outbound.js: the telephony / conversational-AI media bridge

    A shallow embedding of [src/outbound.js]: the per-call closure of the
    [/outbound-media-stream] route (its four variables and its handlers),
    the [/transcription-stream/:callSid] route with the process-wide
    [callClientMap], and [getSignedUrl].  Handlers are written in a small
    monad that threads the mutable state, collects the calls made on the
    sockets and the console, and propagates JavaScript exceptions up to the
    enclosing [try]/[catch]. *)

From Stdlib Require Import ZArith NArith Lia List Bool.
From Stdlib.Strings Require Import String Ascii Byte.
From Stdlib Require Import Floats.SpecFloat.
From stdpp Require Import base option gmap strings.

Local Open Scope string_scope.
Local Open Scope list_scope.

(** ** JavaScript values *)

#[local] Set Warnings "-register-all".

(** What [JSON.parse] can return, plus [undefined] (absent properties,
    unset variables).  Numbers are IEEE 754 doubles, in the library's
    inductive description of them.  Objects keep their properties in
    source order; a parsed object never repeats a key. *)
Inductive value : Type :=
| VUndefined
| VNull
| VBool (b : bool)
| VNum (x : spec_float)
| VStr (s : string)
| VArr (items : list value)
| VObj (fields : list (string * value)).

(** Own property [k] of an object literal, [undefined] when absent. *)
Fixpoint own (k : string) (fields : list (string * value)) : value :=
  match fields with
  | [] => VUndefined
  | (k', v) :: rest => if String.eqb k k' then v else own k rest
  end.

(** [v?.k].  The property names used by the program ([event], [start],
    [media], [payload], [type], [audio], [chunk], ...) exist on no
    prototype, so primitives and arrays answer [undefined]. *)
Definition member_opt (k : string) (v : value) : value :=
  match v with
  | VObj fields => own k fields
  | _ => VUndefined
  end.

(** [v.k]: [None] is the [TypeError] raised on [null] and [undefined]. *)
Definition member (k : string) (v : value) : option value :=
  match v with
  | VUndefined | VNull => None
  | _ => Some (member_opt k v)
  end.

(** ToBoolean. *)
Definition truthy (v : value) : bool :=
  match v with
  | VUndefined | VNull => false
  | VBool b => b
  | VNum (S754_zero _) | VNum S754_nan => false
  | VNum _ => true
  | VStr s => negb (String.eqb s "")
  | VArr _ | VObj _ => true
  end.

(** [a || b]. *)
Definition js_or (a b : value) : value := if truthy a then a else b.

(** [v === "lit"]. *)
Definition is_str (v : value) (lit : string) : bool :=
  match v with
  | VStr s => String.eqb s lit
  | _ => false
  end.

(** ** JSON texts *)

(** The value a JSON text denotes once written: [JSON.stringify] leaves
    out properties whose value is [undefined], writes [null] for
    [undefined] array items and for non-finite numbers, and [0] for [-0]. *)
Fixpoint serial (v : value) : value :=
  match v with
  | VNum (S754_infinity _) | VNum S754_nan => VNull
  | VNum (S754_zero _) => VNum (S754_zero false)
  | VArr items =>
      VArr (List.map (fun x => match x with
                               | VUndefined => VNull
                               | _ => serial x
                               end) items)
  | VObj fields =>
      VObj ((fix props (fs : list (string * value)) : list (string * value) :=
               match fs with
               | [] => []
               | (k, VUndefined) :: rest => props rest
               | (k, x) :: rest => (k, serial x) :: props rest
               end) fields)
  | _ => v
  end.

(** A WebSocket text frame: either the JSON text of a value, or text that
    [JSON.parse] rejects with a [SyntaxError]. *)
Inductive frame : Type :=
| Text (v : value)
| Garbled (raw : string).

Definition JSON_parse (data : frame) : option value :=
  match data with
  | Text v => Some v
  | Garbled _ => None
  end.

Definition JSON_stringify (v : value) : frame := Text (serial v).

(** ** Base64, as [Buffer] reads and writes it *)

Module Base64.

Local Open Scope N_scope.

(** The standard alphabet, by sextet. *)
Definition digit (n : N) : ascii :=
  if n <? 26 then ascii_of_N (65 + n)
  else if n <? 52 then ascii_of_N (97 + (n - 26))
  else if n <? 62 then ascii_of_N (48 + (n - 52))
  else if n =? 62 then "+"%char
  else "/"%char.

(** The sextet of a character; the decoder also reads the URL-safe
    alphabet ([-] for 62, [_] for 63). *)
Definition unbase64 (c : ascii) : option N :=
  let n := N_of_ascii c in
  if (65 <=? n) && (n <=? 90) then Some (n - 65)
  else if (97 <=? n) && (n <=? 122) then Some (n - 97 + 26)
  else if (48 <=? n) && (n <=? 57) then Some (n - 48 + 52)
  else if (n =? 43) || (n =? 45) then Some 62
  else if (n =? 47) || (n =? 95) then Some 63
  else None.

Definition byte_of (n : N) : byte :=
  match Byte.of_N (n mod 256) with
  | Some b => b
  | None => x00
  end.

(** [buf.toString("base64")]: three bytes give four digits, the tail is
    padded with [=]. *)
Fixpoint encode (bs : list byte) : string :=
  match bs with
  | [] => ""
  | a :: [] =>
      let a := Byte.to_N a in
      String (digit (a / 4)) (String (digit (a mod 4 * 16)) "==")
  | a :: b :: [] =>
      let a := Byte.to_N a in
      let b := Byte.to_N b in
      String (digit (a / 4))
        (String (digit (a mod 4 * 16 + b / 16))
           (String (digit (b mod 16 * 4)) "="))
  | a :: b :: c :: rest =>
      let a := Byte.to_N a in
      let b := Byte.to_N b in
      let c := Byte.to_N c in
      String (digit (a / 4))
        (String (digit (a mod 4 * 16 + b / 16))
           (String (digit (b mod 16 * 4 + c / 64))
              (String (digit (c mod 64)) (encode rest))))
  end.

(** The sextets the decoder reads: characters outside both alphabets
    (white space, line breaks, ...) are skipped, the first [=] ends the
    input. *)
Fixpoint sextets (s : string) : list N :=
  match s with
  | EmptyString => []
  | String c rest =>
      if Ascii.eqb c "="%char then []
      else match unbase64 c with
           | Some n => n :: sextets rest
           | None => sextets rest
           end
  end.

(** Four sextets give three bytes; a tail of two or three sextets gives
    one or two bytes, a lone sextet none. *)
Fixpoint pack (l : list N) : list byte :=
  match l with
  | a :: b :: c :: d :: rest =>
      byte_of (a * 4 + b / 16)
        :: byte_of (b mod 16 * 16 + c / 4)
        :: byte_of (c mod 4 * 64 + d)
        :: pack rest
  | a :: b :: c :: [] =>
      [byte_of (a * 4 + b / 16); byte_of (b mod 16 * 16 + c / 4)]
  | a :: b :: [] => [byte_of (a * 4 + b / 16)]
  | _ => []
  end.

(** [Buffer.from(s, "base64")] on a string. *)
Definition decode (s : string) : list byte := pack (sextets s).

(** A sextet whose digit the decoder reads back, and does not take for
    padding. *)
Definition digit_checks (n : N) : bool :=
  match unbase64 (digit n) with
  | Some m => m =? n
  | None => false
  end && negb (Ascii.eqb (digit n) "="%char).

End Base64.

(** [Buffer.from(v, "base64")] throws a [TypeError] on [undefined],
    [null], booleans and numbers and decodes strings; what it makes of an
    array or an object (array-likes yield their items as bytes, most
    objects throw) is the runtime's, as is the set of addresses the
    [WebSocket] constructor accepts without throwing. *)
Class Runtime : Type := {
  Buffer_from_object : value → option (list byte);
  WebSocket_accepts : value → bool;
}.

Definition Buffer_from `{Runtime} (v : value) : option (list byte) :=
  match v with
  | VStr s => Some (Base64.decode s)
  | VArr _ | VObj _ => Buffer_from_object v
  | _ => None
  end.

(** ** Sockets, state and observable calls *)

Inductive readyState : Type := CONNECTING | OPEN | CLOSING | CLOSED.

(** Identity of an observer socket accepted on
    [/transcription-stream/:callSid]. *)
Definition conn : Type := nat.

(** An observer socket: the [callSid] route parameter its handlers close
    over, and its [readyState]. *)
Record observer : Type := Observer {
  route_callSid : string;
  client_readyState : readyState;
}.

Inductive peer : Type :=
| Twilio               (* [ws] of the media-stream route *)
| ElevenLabs           (* [elevenLabsWs] *)
| Frontend (c : conn). (* an observer's [ws] *)

Inductive error : Type :=
| TypeError
| SyntaxError
| Failure (msg : string).

(** The console lines of the program, by source line. *)
Inductive log : Type :=
| TwilioConnected                          (* 137 *)
| SignedUrlError (e : error)               (* 78 *)
| SetupError (e : error)                   (* 232 *)
| NoFrontendClient (sid : value)           (* 151 *)
| AudioNoStreamSid                         (* 210 *)
| UnhandledType (type : value)             (* 221 *)
| ElevenLabsMessageError (e : error)       (* 224 *)
| ElevenLabsDisconnected                   (* 229 *)
| SocketError (p : peer)                   (* 144, 230 *)
| StreamStarted (sid : value)              (* 246 *)
| TwilioMessageError (e : error)           (* 258 *)
| TwilioStreamClosed (sid : value)         (* 266 *)
| FrontendConnected (sid : string)         (* 277 *)
| FrontendDisconnected (sid : string)      (* 283 *)
| FrontendError (sid : string).            (* 288 *)

(** Calls that leave the program. *)
Inductive action : Type :=
| Send (p : peer) (data : frame)   (* [p.send(data)] *)
| Close (p : peer)                 (* [p.close()] *)
| Fetch                            (* the GET of [getSignedUrl] *)
| NewWebSocket (address : value)   (* [new WebSocket(address)] *)
| Console (l : log).

(** The variables of one media-stream connection (lines 139-142), the
    [readyState] of its telephony socket, whether [setupElevenLabs] is
    suspended at its [await], and the observer registry.  [elevenLabsWs]
    is [None] for [null], otherwise the socket with its [readyState]. *)
Record world : Type := World {
  streamSid : value;
  callSid : value;
  elevenLabsWs : option readyState;
  customParameters : value;
  ws : readyState;
  awaiting : bool;
  callClientMap : gmap string conn;
  clients : gmap conn observer;
}.

Definition set_streamSid (v : value) (w : world) : world :=
  World v (callSid w) (elevenLabsWs w) (customParameters w)
        (ws w) (awaiting w) (callClientMap w) (clients w).
Definition set_callSid (v : value) (w : world) : world :=
  World (streamSid w) v (elevenLabsWs w) (customParameters w)
        (ws w) (awaiting w) (callClientMap w) (clients w).
Definition set_elevenLabsWs (s : option readyState) (w : world) : world :=
  World (streamSid w) (callSid w) s (customParameters w)
        (ws w) (awaiting w) (callClientMap w) (clients w).
Definition set_customParameters (v : value) (w : world) : world :=
  World (streamSid w) (callSid w) (elevenLabsWs w) v
        (ws w) (awaiting w) (callClientMap w) (clients w).
Definition set_ws (s : readyState) (w : world) : world :=
  World (streamSid w) (callSid w) (elevenLabsWs w) (customParameters w)
        s (awaiting w) (callClientMap w) (clients w).
Definition set_awaiting (b : bool) (w : world) : world :=
  World (streamSid w) (callSid w) (elevenLabsWs w) (customParameters w)
        (ws w) b (callClientMap w) (clients w).
Definition set_callClientMap (m : gmap string conn) (w : world) : world :=
  World (streamSid w) (callSid w) (elevenLabsWs w) (customParameters w)
        (ws w) (awaiting w) m (clients w).
Definition set_clients (m : gmap conn observer) (w : world) : world :=
  World (streamSid w) (callSid w) (elevenLabsWs w) (customParameters w)
        (ws w) (awaiting w) (callClientMap w) m.

(** ** The handler monad *)

Inductive completion (A : Type) : Type :=
| Normal (a : A)
| Thrown (e : error).
Arguments Normal {A} a.
Arguments Thrown {A} e.

(** A handler body: from a state to how it completed, the state it left
    and the calls it made.  A throw keeps both. *)
Definition M (A : Type) : Type := world → completion A * world * list action.

#[global] Instance M_ret : MRet M := λ A a w, (Normal a, w, []).

#[global] Instance M_bind : MBind M := λ A B f m w,
  match m w with
  | (Normal a, w1, out1) =>
      match f a w1 with
      | (r, w2, out2) => (r, w2, out1 ++ out2)
      end
  | (Thrown e, w1, out1) => (Thrown e, w1, out1)
  end.

Definition throw {A : Type} (e : error) : M A := λ w, (Thrown e, w, []).

Definition try_catch {A : Type} (body : M A) (handler : error → M A) : M A :=
  λ w,
  match body w with
  | (Normal a, w1, out1) => (Normal a, w1, out1)
  | (Thrown e, w1, out1) =>
      match handler e w1 with
      | (r, w2, out2) => (r, w2, out1 ++ out2)
      end
  end.

Definition read {A : Type} (f : world → A) : M A := λ w, (Normal (f w), w, []).
Definition write (f : world → world) : M unit := λ w, (Normal tt, f w, []).
Definition emit (a : action) : M unit := λ w, (Normal tt, w, [a]).
Definition console (l : log) : M unit := emit (Console l).

Definition lift {A : Type} (e : error) (o : option A) : M A :=
  match o with
  | Some a => mret a
  | None => throw e
  end.

(** [if (b) { m }] without [else]. *)
Definition when (b : bool) (m : M unit) : M unit :=
  if b then m else mret tt.

(** State and calls of a handler that ran to its end. *)
Definition exec (m : M unit) (w : world) : world * list action :=
  match m w with
  | (_, w', out) => (w', out)
  end.

(** ** The program *)

(** What the GET of [getSignedUrl] comes back with: [fetch] rejects (with
    a [TypeError]), or a response with its [ok] flag, its [statusText]
    and what [response.json()] resolves to ([None] when it rejects). *)
Inductive response : Type :=
| NetworkFailure
| Response (ok : bool) (statusText : string) (body : option value).

Section Bridge.

Context `{Runtime}.

(** [getSignedUrl], lines 59-81, from the point where [fetch] settles. *)
Definition getSignedUrl (r : response) : M value :=
  try_catch
    (match r with
     | NetworkFailure => throw TypeError
     | Response ok statusText body =>
         if negb ok
         then throw (Failure ("Failed to get signed URL: " +:+ statusText))
         else
           data ← lift SyntaxError body;
           lift TypeError (member "signed_url" data)
     end)
    (λ e, console (SignedUrlError e);; throw e).

(** [sendToFrontend], lines 146-153.  The keys of [callClientMap] are
    route parameters, hence strings: [Map.get] finds an entry only for a
    string [callSid]. *)
Definition sendToFrontend (data : value) : M unit :=
  sid ← read callSid;
  registry ← read callClientMap;
  sockets ← read clients;
  let clientWs := match sid with
                  | VStr s => registry !! s
                  | _ => None
                  end in
  match clientWs with
  | Some c =>
      match client_readyState <$> sockets !! c with
      | Some OPEN => emit (Send (Frontend c) (JSON_stringify data))
      | _ => console (NoFrontendClient sid)
      end
  | None => console (NoFrontendClient sid)
  end.

(** [elevenLabsWs?.readyState === WebSocket.OPEN]. *)
Definition elevenLabs_open (w : world) : bool :=
  match elevenLabsWs w with
  | Some OPEN => true
  | _ => false
  end.

(** [elevenLabsWs.close()]: the socket turns [CLOSING] at once. *)
Definition elevenLabsWs_close : M unit :=
  write (set_elevenLabsWs (Some CLOSING));;
  emit (Close ElevenLabs).

(** [elevenLabsWs.on("open")], lines 160-173. *)
Definition elevenLabsWs_on_open : M unit :=
  params ← read customParameters;
  let initialConfig :=
    VObj [("type", VStr "conversation_initiation_client_data");
          ("conversation_config_override",
            VObj [("agent",
              VObj [("prompt",
                      VObj [("prompt",
                              js_or (member_opt "prompt" params)
                                    (VStr "you are gary from the phone store"))]);
                    ("first_message",
                      js_or (member_opt "first_message" params)
                            (VStr "Hey, how can I help you today?"))])])] in
  emit (Send ElevenLabs (JSON_stringify initialConfig)).

(** [elevenLabsWs.on("message")], lines 175-226. *)
Definition elevenLabsWs_on_message (data : frame) : M unit :=
  try_catch
    (message ← lift SyntaxError (JSON_parse data);
     type ← lift TypeError (member "type" message);
     if is_str type "agent_response" then
       ev ← lift TypeError (member "agent_response_event" message);
       sendToFrontend (VObj [("event", VStr "transcript");
                             ("speaker", VStr "Agent");
                             ("text", member_opt "agent_response" ev)])
     else if is_str type "user_transcript" then
       ev ← lift TypeError (member "user_transcription_event" message);
       sendToFrontend (VObj [("event", VStr "transcript");
                             ("speaker", VStr "User");
                             ("text", member_opt "user_transcript" ev)])
     else if is_str type "audio" then
       sid ← read streamSid;
       if truthy sid then
         audio ← lift TypeError (member "audio" message);
         if truthy (member_opt "chunk" audio) then
           audio ← lift TypeError (member "audio" message);
           chunk ← lift TypeError (member "chunk" audio);
           let audioData := VObj [("event", VStr "media");
                                  ("streamSid", sid);
                                  ("media", VObj [("payload", chunk)])] in
           emit (Send Twilio (JSON_stringify audioData))
         else
           audio_event ← lift TypeError (member "audio_event" message);
           if truthy (member_opt "audio_base_64" audio_event) then
             audio_event ← lift TypeError (member "audio_event" message);
             chunk ← lift TypeError (member "audio_base_64" audio_event);
             let audioData := VObj [("event", VStr "media");
                                    ("streamSid", sid);
                                    ("media", VObj [("payload", chunk)])] in
             emit (Send Twilio (JSON_stringify audioData))
           else mret tt
       else console AudioNoStreamSid
     else if is_str type "interruption" then
       sid ← read streamSid;
       when (truthy sid)
         (emit (Send Twilio (JSON_stringify (VObj [("event", VStr "clear");
                                                   ("streamSid", sid)]))))
     else console (UnhandledType type))
    (λ e, console (ElevenLabsMessageError e)).

(** [elevenLabsWs.on("close")], line 229. *)
Definition elevenLabsWs_on_close : M unit := console ElevenLabsDisconnected.

(** [elevenLabsWs.on("error", console.error)], line 230. *)
Definition elevenLabsWs_on_error : M unit := console (SocketError ElevenLabs).

(** [setupElevenLabs], lines 155-234, up to its [await]: the request of
    [getSignedUrl] leaves and the function is suspended. *)
Definition setupElevenLabs : M unit :=
  emit Fetch;;
  write (set_awaiting true).

(** [setupElevenLabs] from its [await] on: the constructor leaves the new
    socket [CONNECTING]; the four handlers are attached to it. *)
Definition setupElevenLabs_resume (r : response) : M unit :=
  try_catch
    (signedUrl ← getSignedUrl r;
     if WebSocket_accepts signedUrl then
       emit (NewWebSocket signedUrl);;
       write (set_elevenLabsWs (Some CONNECTING))
     else throw SyntaxError)
    (λ e, console (SetupError e)).

(** [ws.on("message")], lines 238-260. *)
Definition ws_on_message (msg : frame) : M unit :=
  try_catch
    (message ← lift SyntaxError (JSON_parse msg);
     event ← lift TypeError (member "event" message);
     if is_str event "start" then
       start ← lift TypeError (member "start" message);
       v ← lift TypeError (member "streamSid" start);
       write (set_streamSid v);;
       start ← lift TypeError (member "start" message);
       v ← lift TypeError (member "callSid" start);
       write (set_callSid v);;
       start ← lift TypeError (member "start" message);
       v ← lift TypeError (member "customParameters" start);
       write (set_customParameters v);;
       sid ← read callSid;
       console (StreamStarted sid)
     else
     is_open ← read elevenLabs_open;
     if is_str event "media" && is_open then
       media ← lift TypeError (member "media" message);
       payload ← lift TypeError (member "payload" media);
       buf ← lift TypeError (Buffer_from payload);
       let audioMessage :=
         VObj [("user_audio_chunk", VStr (Base64.encode buf))] in
       emit (Send ElevenLabs (JSON_stringify audioMessage))
     else if is_str event "stop" then
       is_open ← read elevenLabs_open;
       when is_open elevenLabsWs_close
     else mret tt)
    (λ e, console (TwilioMessageError e)).

(** [ws.on("close")], lines 262-267. *)
Definition ws_on_close : M unit :=
  is_open ← read elevenLabs_open;
  when is_open elevenLabsWs_close;;
  sid ← read callSid;
  console (TwilioStreamClosed sid).

(** [ws.on("error", console.error)], line 144. *)
Definition ws_on_error : M unit := console (SocketError Twilio).

(** The [/outbound-media-stream] route, lines 136-268, run when the
    telephony socket is accepted. *)
Definition outbound_media_stream : M unit :=
  console TwilioConnected;;
  write (set_streamSid VNull);;
  write (set_callSid VNull);;
  write (set_elevenLabsWs None);;
  write (set_customParameters VNull);;
  setupElevenLabs.

(** The [/transcription-stream/:callSid] route, lines 275-291, and the
    two handlers it attaches. *)
Definition transcription_stream (sid : string) (c : conn) : M unit :=
  console (FrontendConnected sid);;
  registry ← read callClientMap;
  write (set_callClientMap (<[sid := c]> registry)).

Definition clientWs_on_close (sid : string) : M unit :=
  console (FrontendDisconnected sid);;
  registry ← read callClientMap;
  write (set_callClientMap (delete sid registry)).

Definition clientWs_on_error (sid : string) : M unit :=
  console (FrontendError sid);;
  registry ← read callClientMap;
  write (set_callClientMap (delete sid registry)).

(** ** Events *)

(** What the runtime delivers to the program. *)
Inductive event : Type :=
| OnSignedUrl (r : response)
| OnElevenLabsOpen
| OnElevenLabsMessage (data : frame)
| OnElevenLabsClose
| OnElevenLabsError
| OnTwilioMessage (msg : frame)
| OnTwilioClose
| OnTwilioError
| OnFrontendConnect (sid : string) (c : conn)
| OnFrontendClose (c : conn)
| OnFrontendError (c : conn).

(** One event: the socket library updates the [readyState] it reports
    (open: [OPEN], close: [CLOSED]), then the attached handler runs.  The
    AI socket's handlers exist once the socket does; an observer's once
    it is accepted; the continuation of [setupElevenLabs] runs once. *)
Definition handle (ev : event) (w : world) : world * list action :=
  match ev with
  | OnSignedUrl r =>
      if awaiting w
      then exec (setupElevenLabs_resume r) (set_awaiting false w)
      else (w, [])
  | OnElevenLabsOpen =>
      match elevenLabsWs w with
      | Some CONNECTING =>
          exec elevenLabsWs_on_open (set_elevenLabsWs (Some OPEN) w)
      | _ => (w, [])
      end
  | OnElevenLabsMessage data =>
      match elevenLabsWs w with
      | Some _ => exec (elevenLabsWs_on_message data) w
      | None => (w, [])
      end
  | OnElevenLabsClose =>
      match elevenLabsWs w with
      | Some _ => exec elevenLabsWs_on_close (set_elevenLabsWs (Some CLOSED) w)
      | None => (w, [])
      end
  | OnElevenLabsError =>
      match elevenLabsWs w with
      | Some _ => exec elevenLabsWs_on_error w
      | None => (w, [])
      end
  | OnTwilioMessage msg => exec (ws_on_message msg) w
  | OnTwilioClose => exec ws_on_close (set_ws CLOSED w)
  | OnTwilioError => exec ws_on_error w
  | OnFrontendConnect sid c =>
      exec (transcription_stream sid c)
           (set_clients (<[c := Observer sid OPEN]> (clients w)) w)
  | OnFrontendClose c =>
      match clients w !! c with
      | Some o =>
          exec (clientWs_on_close (route_callSid o))
               (set_clients
                  (<[c := Observer (route_callSid o) CLOSED]> (clients w)) w)
      | None => (w, [])
      end
  | OnFrontendError c =>
      match clients w !! c with
      | Some o => exec (clientWs_on_error (route_callSid o)) w
      | None => (w, [])
      end
  end.

(** A sequence of events, with all the calls it caused. *)
Fixpoint run (evs : list event) (w : world) : world * list action :=
  match evs with
  | [] => (w, [])
  | ev :: rest =>
      match handle ev w with
      | (w1, out1) =>
          match run rest w1 with
          | (w2, out2) => (w2, out1 ++ out2)
          end
      end
  end.

End Bridge.

(** The server before any connection, and the state in which a telephony
    connection has just been accepted. *)
Definition boot : world := World VNull VNull None VNull OPEN false ∅ ∅.

Definition accepted `{Runtime} : world * list action :=
  exec outbound_media_stream boot.

(** ** Vocabulary of the statements *)

(** A telephony frame whose [event] is ["start"]. *)
Definition is_start (msg : frame) : bool :=
  match JSON_parse msg with
  | Some message => is_str (member_opt "event" message) "start"
  | None => false
  end.

(** Handlers that keep a relation between the state before, the state
    after and the calls made. *)
Definition respects {A : Type} (R : world → world → list action → Prop)
    (m : M A) : Prop :=
  ∀ w, R w (m w).1.2 (m w).2.

Definition ws_scheme (s : string) : bool :=
  String.prefix "ws://" s || String.prefix "wss://" s.

(** A runtime whose [Buffer.from] throws on every array and object, and
    whose [WebSocket] constructor takes the strings that start with a
    WebSocket scheme. *)
Definition strict_runtime : Runtime := {|
  Buffer_from_object := λ _, None;
  WebSocket_accepts := λ v, match v with
                            | VStr s => ws_scheme s
                            | _ => false
                            end;
|}.

(** Frames of the two protocols, as their peers send them. *)
Definition start_frame (streamSid callSid params : value) : frame :=
  Text (VObj [("event", VStr "start");
              ("start", VObj [("streamSid", streamSid);
                              ("callSid", callSid);
                              ("customParameters", params)])]).

Definition media_frame (payload : value) : frame :=
  Text (VObj [("event", VStr "media"); ("media", VObj [("payload", payload)])]).

Definition signed_url_response (url : string) : response :=
  Response true "OK" (Some (VObj [("signed_url", VStr url)])).

Definition audio_message (chunk : value) : frame :=
  Text (VObj [("type", VStr "audio"); ("audio", VObj [("chunk", chunk)])]).

Definition audio_event_message (chunk : value) : frame :=
  Text (VObj [("type", VStr "audio");
              ("audio_event", VObj [("audio_base_64", chunk)])]).

Definition interruption_message : frame :=
  Text (VObj [("type", VStr "interruption")]).

Definition agent_response_message (text : value) : frame :=
  Text (VObj [("type", VStr "agent_response");
              ("agent_response_event", VObj [("agent_response", text)])]).

(** The session identifiers are left as they were. *)
Definition same_ids (w w' : world) (out : list action) : Prop :=
  streamSid w' = streamSid w ∧ callSid w' = callSid w.

(** Calls that act on the telephony socket's life or start the AI leg. *)
Definition starts_or_ends_leg (a : action) : bool :=
  match a with
  | Close Twilio | Fetch | NewWebSocket _ => true
  | _ => false
  end.

(** Once [setupElevenLabs] is past its [await]: telephony socket
    untouched, AI setup not begun anew. *)
Definition telephony_kept (w w' : world) (out : list action) : Prop :=
  awaiting w = false →
  ws w' = ws w ∧ awaiting w' = false
  ∧ Forall (λ a, starts_or_ends_leg a = false) out.

(** A call that sends to some observer. *)
Definition to_frontend (a : action) : bool :=
  match a with
  | Send (Frontend _) _ => true
  | _ => false
  end.

(** An event other than the arrival of a telephony start frame. *)
Definition no_start (ev : event) : Prop :=
  ∀ msg, ev = OnTwilioMessage msg → is_start msg = false.

(** A call in progress: start received, AI leg open. *)
Definition established : world :=
  (@run strict_runtime
     [OnTwilioMessage (start_frame (VStr "ST1") (VStr "CA1")
                         (VObj [("prompt", VStr "be brief")]));
      OnSignedUrl (signed_url_response "wss://api.elevenlabs.io/v1/convai");
      OnElevenLabsOpen]
     (@accepted strict_runtime).1).1.

(** The same call with an observer attached for it. *)
Definition observed : world :=
  (@run strict_runtime [OnFrontendConnect "CA1" 7] established).1.

(** The AI leg comes up and a media frame arrives, all before any start
    event. *)
Definition media_before_start : world * list action :=
  @run strict_runtime
    [OnSignedUrl (signed_url_response "wss://api.elevenlabs.io/v1/convai");
     OnElevenLabsOpen;
     OnTwilioMessage (media_frame (VStr "QUJD"))]
    (@accepted strict_runtime).1.

(** The fetch of the signed URL fails; the call goes on. *)
Definition failed_setup : world * list action :=
  @run strict_runtime
    [OnSignedUrl NetworkFailure;
     OnTwilioMessage (start_frame (VStr "ST1") (VStr "CA1") VNull);
     OnTwilioMessage (media_frame (VStr "QUJD"))]
    (@accepted strict_runtime).1.

(** One start event, then another on the same connection. *)
Definition started_once : world :=
  (@handle strict_runtime
     (OnTwilioMessage (start_frame (VStr "ST1") (VStr "CA1") VNull))
     (@accepted strict_runtime).1).1.

Definition started_twice : world :=
  (@handle strict_runtime
     (OnTwilioMessage (start_frame (VStr "ST2") (VStr "CA2") VNull))
     started_once).1.

(** A start event carrying [ST1], the AI leg comes up, a second start
    event carries [ST2], then the AI sends an audio chunk. *)
Definition audio_after_restart : world * list action :=
  @run strict_runtime
    [OnTwilioMessage (start_frame (VStr "ST1") (VStr "CA1") VNull);
     OnSignedUrl (signed_url_response "wss://api.elevenlabs.io/v1/convai");
     OnElevenLabsOpen;
     OnTwilioMessage (start_frame (VStr "ST2") (VStr "CA1") VNull);
     OnElevenLabsMessage (audio_message (VStr "QUJD"))]
    (@accepted strict_runtime).1.

(** * The rest of the server *)

(** ** Startup *)

(** [!process.env.K], lines 22-28: unset, or set to the empty string. *)
Definition env_missing (env : gmap string string) (k : string) : bool :=
  match env !! k with
  | Some s => String.eqb s ""
  | None => true
  end.

(** The check of lines 22-31: [None] when the module goes on loading,
    otherwise the message of the error it throws. *)
Definition check_env (env : gmap string string) : option string :=
  if env_missing env "ELEVENLABS_API_KEY"
     || env_missing env "ELEVENLABS_AGENT_ID"
     || env_missing env "TWILIO_ACCOUNT_SID"
     || env_missing env "TWILIO_AUTH_TOKEN"
     || env_missing env "TWILIO_PHONE_NUMBER"
  then Some "Missing required environment variables"
  else None.

(** ** Placing the call *)

(** [encodeURIComponent] on the UTF-8 bytes of a text: the unreserved
    characters stay, every other byte becomes [%XX] in upper-case
    hexadecimal. *)
Module URI.

Local Open Scope N_scope.

Definition unreserved (c : ascii) : bool :=
  let n := N_of_ascii c in
  ((65 <=? n) && (n <=? 90)) || ((97 <=? n) && (n <=? 122))
  || ((48 <=? n) && (n <=? 57))
  || (n =? 45) || (n =? 95) || (n =? 46) || (n =? 33) || (n =? 126)
  || (n =? 42) || (n =? 39) || (n =? 40) || (n =? 41).

Definition hex_digit (n : N) : ascii :=
  if n <? 10 then ascii_of_N (48 + n) else ascii_of_N (55 + n).

Fixpoint encodeURIComponent (s : string) : string :=
  match s with
  | EmptyString => EmptyString
  | String c rest =>
      if unreserved c then String c (encodeURIComponent rest)
      else
        let n := N_of_ascii c in
        String "%"%char
          (String (hex_digit (n / 16))
             (String (hex_digit (n mod 16)) (encodeURIComponent rest)))
  end.

(** The value of a hexadecimal digit, and the reading of an escaped text
    back into bytes; used to tell encoded texts apart. *)
Definition hex_value (c : ascii) : N :=
  let n := N_of_ascii c in
  if (48 <=? n) && (n <=? 57) then n - 48
  else if (65 <=? n) && (n <=? 70) then n - 55
  else if (97 <=? n) && (n <=? 102) then n - 87
  else 0.

Fixpoint unescape (s : string) : string :=
  match s with
  | EmptyString => EmptyString
  | String c rest =>
      if Ascii.eqb c "%"%char then
        match rest with
        | String h (String l rest') =>
            String (ascii_of_N (hex_value h * 16 + hex_value l)) (unescape rest')
        | _ => String c (unescape rest)
        end
      else String c (unescape rest)
  end.

(** A character that an encoded text can contain. *)
Definition safe (c : ascii) : bool := unreserved c || Ascii.eqb c "%"%char.

Definition byte_checks (n : N) : bool :=
  (hex_value (hex_digit (n / 16)) * 16 + hex_value (hex_digit (n mod 16)) =? n)
  && unreserved (hex_digit (n / 16)) && unreserved (hex_digit (n mod 16))
  && negb (Ascii.eqb (hex_digit (n / 16)) "%"%char).

End URI.

(** Texts made of the same characters throughout. *)
Fixpoint all_chars (p : ascii → bool) (s : string) : bool :=
  match s with
  | EmptyString => true
  | String c rest => p c && all_chars p rest
  end.

Fixpoint join (sep : string) (parts : list string) : string :=
  match parts with
  | [] => ""
  | [p] => p
  | p :: rest => p +:+ sep +:+ join sep rest
  end.





Section OutboundCall.

(** Number to text, as template literals and [encodeURIComponent] do
    it: the runtime's. *)
Variable Number_toString : spec_float → string.

(** ToString of a value. *)
Fixpoint ToString (v : value) : string :=
  match v with
  | VUndefined => "undefined"
  | VNull => "null"
  | VBool true => "true"
  | VBool false => "false"
  | VNum x => Number_toString x
  | VStr s => s
  | VArr items =>
      join "," (List.map (fun x => match x with
                                   | VUndefined | VNull => ""
                                   | _ => ToString x
                                   end) items)
  | VObj _ => "[object Object]"
  end.

(** The callback address of lines 95-99. *)
Definition twiml_url (host prompt first_message : value) : string :=
  "https://" +:+ ToString host +:+ "/outbound-call-twiml?prompt="
  +:+ URI.encodeURIComponent (ToString prompt)
  +:+ "&first_message=" +:+ URI.encodeURIComponent (ToString first_message).


End OutboundCall.

(** ** Vocabulary of the further statements *)

(** A call made on the AI socket. *)
Definition ai_write (a : action) : bool :=
  match a with
  | Send ElevenLabs _ | Close ElevenLabs => true
  | _ => false
  end.

(** The AI socket has been closed, by the program or by its peer. *)
Definition ai_shut (w : world) : bool :=
  match elevenLabsWs w with
  | Some CLOSING | Some CLOSED => true
  | _ => false
  end.

(** Past the setup and with the AI socket shut, things stay so and the
    socket is not used. *)
Definition ai_left_alone (w w' : world) (out : list action) : Prop :=
  awaiting w = false → ai_shut w = true →
  awaiting w' = false ∧ ai_shut w' = true
  ∧ Forall (λ a, ai_write a = false) out.

(** A frame sent on the telephony socket. *)
Definition twilio_send (a : action) : bool :=
  match a with
  | Send Twilio _ => true
  | _ => false
  end.

(** While no [streamSid] is known, none becomes known and nothing is
    sent on the telephony socket. *)
Definition telephony_silent (w w' : world) (out : list action) : Prop :=
  truthy (streamSid w) = false →
  truthy (streamSid w') = false ∧ Forall (λ a, twilio_send a = false) out.

(** The three variables a start event assigns are left as they were. *)
Definition same_session (w w' : world) (out : list action) : Prop :=
  streamSid w' = streamSid w ∧ callSid w' = callSid w
  ∧ customParameters w' = customParameters w.

(** The state is left as it was, and the calls made neither use the AI
    socket nor open or end a leg. *)
Definition only_reports (w w' : world) (out : list action) : Prop :=
  w' = w
  ∧ Forall (λ a, ai_write a = false ∧ starts_or_ends_leg a = false) out.

(** The registry, the sockets of the observers and the telephony socket
    are left as they were; nothing is sent to the telephony side or to
    an observer, no leg is opened or ended. *)
Definition towards_ai_only (w w' : world) (out : list action) : Prop :=
  callClientMap w' = callClientMap w ∧ clients w' = clients w
  ∧ ws w' = ws w ∧ awaiting w' = awaiting w
  ∧ Forall (λ a, twilio_send a = false ∧ to_frontend a = false
                 ∧ starts_or_ends_leg a = false) out.

(** The object sent when the AI socket opens (lines 161-171). *)
Definition initial_config (prompt first_message : value) : value :=
  VObj [("type", VStr "conversation_initiation_client_data");
        ("conversation_config_override",
          VObj [("agent",
            VObj [("prompt", VObj [("prompt", prompt)]);
                  ("first_message", first_message)])])].

(** AI sockets constructed by a run, and how many [setupElevenLabs] may
    still construct. *)
Definition new_socket (a : action) : bool :=
  match a with
  | NewWebSocket _ => true
  | _ => false
  end.

Definition sockets_made (out : list action) : nat :=
  length (List.filter new_socket out).

Definition setup_budget (w : world) : nat := if awaiting w then 1 else 0.

Definition setup_spent (w w' : world) (out : list action) : Prop :=
  (sockets_made out + setup_budget w' ≤ setup_budget w)%nat
  ∧ Forall (λ a, a ≠ Fetch) out.

(** The suspended state of [setupElevenLabs] and the legs it starts are
    left alone. *)
Definition setup_untouched (w w' : world) (out : list action) : Prop :=
  awaiting w' = awaiting w ∧ Forall (λ a, starts_or_ends_leg a = false) out.

(** Telephony frames and AI messages used below. *)
Definition stop_frame : frame := Text (VObj [("event", VStr "stop")]).

Definition user_transcript_message (text : value) : frame :=
  Text (VObj [("type", VStr "user_transcript");
              ("user_transcription_event", VObj [("user_transcript", text)])]).

(** A call whose start event carried both overrides, at the moment its
    AI socket has been constructed and is still connecting. *)
Definition connecting : world :=
  (@run strict_runtime
     [OnTwilioMessage (start_frame (VStr "ST1") (VStr "CA1")
                         (VObj [("prompt", VStr "be brief");
                                ("first_message", VStr "Good morning")]));
      OnSignedUrl (signed_url_response "wss://api.elevenlabs.io/v1/convai")]
     (@accepted strict_runtime).1).1.

(** Its AI socket closed by a stop event. *)
Definition stopped : world :=
  (@handle strict_runtime (OnTwilioMessage stop_frame) established).1.

(** An environment with the five variables set. *)
Definition full_env : gmap string string :=
  list_to_map [("ELEVENLABS_API_KEY", "key"); ("ELEVENLABS_AGENT_ID", "agent");
               ("TWILIO_ACCOUNT_SID", "AC1"); ("TWILIO_AUTH_TOKEN", "token");
               ("TWILIO_PHONE_NUMBER", "+15550100")].

(** * Properties *)

(** ** Base64 *)

Module Base64Facts.
Import Base64.

Local Open Scope N_scope.

#[local] Ltac Zify.zify_post_hook ::= Z.to_euclidean_division_equations.

(** Lists of bytes, three at a time. *)
Lemma triples_ind (P : list byte → Prop) :
  P [] →
  (∀ a, P [a]) →
  (∀ a b, P [a; b]) →
  (∀ a b c rest, P rest → P (a :: b :: c :: rest)) →
  ∀ bs, P bs.
Proof.
  intros H0 H1 H2 H3 bs.
  assert (G : P bs ∧ (∀ a, P (a :: bs)) ∧ (∀ a b, P (a :: b :: bs))).
  { induction bs as [|c rest (IH0 & IH1 & IH2)].
    - auto.
    - repeat split; auto. }
  apply G.
Qed.

Lemma digit_checks_all :
  forallb digit_checks (List.map N.of_nat (seq 0 64)) = true.
Proof. vm_compute. reflexivity. Qed.

Lemma digit_checks_lt n : n < 64 → digit_checks n = true.
Proof.
  intros Hn.
  pose proof digit_checks_all as Hall.
  rewrite forallb_forall in Hall.
  apply Hall, in_map_iff.
  exists (N.to_nat n). split; [apply N2Nat.id|].
  apply in_seq. lia.
Qed.

Lemma unbase64_digit n : n < 64 → unbase64 (digit n) = Some n.
Proof.
  intros Hn. pose proof (digit_checks_lt n Hn) as Hc.
  unfold digit_checks in Hc.
  apply andb_prop in Hc as [Hc _].
  destruct (unbase64 (digit n)) as [m|]; [|discriminate].
  apply N.eqb_eq in Hc. congruence.
Qed.

Lemma digit_not_pad n : n < 64 → Ascii.eqb (digit n) "="%char = false.
Proof.
  intros Hn. pose proof (digit_checks_lt n Hn) as Hc.
  unfold digit_checks in Hc.
  apply andb_prop in Hc as [_ Hc].
  now apply negb_true_iff in Hc.
Qed.

Lemma sextets_digit n rest :
  n < 64 → sextets (String (digit n) rest) = n :: sextets rest.
Proof.
  intros Hn. cbn [sextets].
  now rewrite digit_not_pad, unbase64_digit.
Qed.

Lemma to_N_lt b : Byte.to_N b < 256.
Proof. pose proof (Byte.to_N_bounded b). lia. Qed.

Lemma byte_of_to_N b n : n = Byte.to_N b → byte_of n = b.
Proof.
  intros ->. unfold byte_of.
  rewrite N.mod_small by apply to_N_lt.
  now rewrite Byte.of_to_N.
Qed.

(** Decoding what the encoder wrote gives the bytes back. *)
Lemma decode_encode bs : decode (encode bs) = bs.
Proof.
  unfold decode.
  induction bs as [|a|a b|a b c rest IH] using triples_ind.
  - reflexivity.
  - pose proof (to_N_lt a).
    cbn [encode].
    rewrite !sextets_digit by lia.
    cbn [sextets pack Ascii.eqb Bool.eqb].
    f_equal. apply byte_of_to_N. lia.
  - pose proof (to_N_lt a). pose proof (to_N_lt b).
    cbn [encode].
    rewrite !sextets_digit by lia.
    cbn [sextets pack Ascii.eqb Bool.eqb].
    f_equal; [|f_equal]; apply byte_of_to_N; lia.
  - pose proof (to_N_lt a). pose proof (to_N_lt b). pose proof (to_N_lt c).
    cbn [encode].
    rewrite !sextets_digit by lia.
    cbn [pack]. rewrite IH.
    f_equal; [|f_equal; [|f_equal]]; apply byte_of_to_N; lia.
Qed.

End Base64Facts.

(** ** Relations kept by handlers *)

Section Respects.

Variable R : world → world → list action → Prop.
Hypothesis R_refl : ∀ w, R w w [].
Hypothesis R_trans : ∀ w1 w2 w3 out1 out2,
  R w1 w2 out1 → R w2 w3 out2 → R w1 w3 (out1 ++ out2).

Lemma respects_ret {A : Type} (a : A) : respects R (mret a).
Proof. intros w. apply R_refl. Qed.

Lemma respects_throw {A : Type} (e : error) : respects R (@throw A e).
Proof. intros w. apply R_refl. Qed.

Lemma respects_read {A : Type} (f : world → A) : respects R (read f).
Proof. intros w. apply R_refl. Qed.

Lemma respects_lift {A : Type} (e : error) (o : option A) :
  respects R (lift e o).
Proof. destruct o; [apply respects_ret | apply respects_throw]. Qed.

Lemma respects_bind {A B : Type} (m : M A) (f : A → M B) :
  respects R m → (∀ a, respects R (f a)) → respects R (m ≫= f).
Proof.
  intros Hm Hf w. specialize (Hm w).
  unfold mbind, M_bind.
  destruct (m w) as [[[a|e] w1] out1]; cbn in *; [|exact Hm].
  specialize (Hf a w1).
  destruct (f a w1) as [[r w2] out2]; cbn in *.
  eapply R_trans; eassumption.
Qed.

Lemma respects_bind_lift {A B : Type} (e : error) (o : option A)
    (f : A → M B) :
  (∀ a, o = Some a → respects R (f a)) → respects R (lift e o ≫= f).
Proof.
  intros Hf. destruct o as [a|].
  - intros w. specialize (Hf a eq_refl w).
    unfold mbind, M_bind, lift, mret, M_ret.
    destruct (f a w) as [[r w2] out2]; cbn in *. exact Hf.
  - apply respects_throw.
Qed.

Lemma respects_try_catch {A : Type} (body : M A) (handler : error → M A) :
  respects R body → (∀ e, respects R (handler e)) →
  respects R (try_catch body handler).
Proof.
  intros Hb Hh w. specialize (Hb w).
  unfold try_catch.
  destruct (body w) as [[[a|e] w1] out1]; cbn in *; [exact Hb|].
  specialize (Hh e w1).
  destruct (handler e w1) as [[r w2] out2]; cbn in *.
  eapply R_trans; eassumption.
Qed.

Lemma respects_when (b : bool) (m : M unit) :
  respects R m → respects R (when b m).
Proof. destruct b; [auto | intros _; apply respects_ret]. Qed.

Lemma respects_write (f : world → world) :
  (∀ w, R w (f w) []) → respects R (write f).
Proof. intros Hf w. apply Hf. Qed.

Lemma respects_emit (a : action) :
  (∀ w, R w w [a]) → respects R (emit a).
Proof. intros Ha w. apply Ha. Qed.

Lemma respects_exec (m : M unit) (w0 w : world) (out0 : list action) :
  respects R m → R w0 w out0 →
  R w0 (exec m w).1 (out0 ++ (exec m w).2).
Proof.
  intros Hm H0. specialize (Hm w). unfold exec.
  destruct (m w) as [[r w1] out1]; cbn in *.
  eapply R_trans; eassumption.
Qed.

(** Over a sequence of events. *)
Lemma respects_run `{Runtime} (ok : event → Prop) :
  (∀ ev w, ok ev → R w (handle ev w).1 (handle ev w).2) →
  ∀ evs w, Forall ok evs → R w (run evs w).1 (run evs w).2.
Proof.
  intros Hh evs. induction evs as [|ev rest IH]; intros w Hok; cbn.
  - apply R_refl.
  - inversion Hok as [|? ? Hev Hrest]; subst.
    specialize (Hh ev w Hev).
    destruct (handle ev w) as [w1 out1]; cbn in *.
    specialize (IH w1 Hrest).
    destruct (run rest w1) as [w2 out2]; cbn in *.
    eapply R_trans; eassumption.
Qed.

End Respects.

Lemma same_ids_refl w : same_ids w w [].
Proof. split; reflexivity. Qed.

Lemma same_ids_trans w1 w2 w3 out1 out2 :
  same_ids w1 w2 out1 → same_ids w2 w3 out2 → same_ids w1 w3 (out1 ++ out2).
Proof. intros [? ?] [? ?]. split; congruence. Qed.

Lemma telephony_kept_refl w : telephony_kept w w [].
Proof. intros ?. repeat split; auto. Qed.

Lemma telephony_kept_trans w1 w2 w3 out1 out2 :
  telephony_kept w1 w2 out1 → telephony_kept w2 w3 out2 →
  telephony_kept w1 w3 (out1 ++ out2).
Proof.
  intros H12 H23 Ha.
  destruct (H12 Ha) as (? & Ha2 & ?).
  destruct (H23 Ha2) as (? & ? & ?).
  repeat split; try congruence. now apply Forall_app.
Qed.

(** Walks through a handler body for a reflexive, transitive relation;
    [base] closes the goals left by [write] and [emit]. *)
Ltac respects_with refl trans base :=
  repeat first
    [ assumption
    | progress cbv zeta
    | apply (respects_ret _ refl)
    | apply (respects_throw _ refl)
    | apply (respects_read _ refl)
    | apply (respects_lift _ refl)
    | apply (respects_bind_lift _ refl); intros
    | apply (respects_bind _ trans); [|intros]
    | apply (respects_try_catch _ trans); [|intros]
    | apply (respects_when _ refl)
    | apply respects_write; intros; base
    | apply respects_emit; intros; base
    | case_match ].

Ltac ids_base := split; reflexivity.

Ltac telephony_base :=
  intros ?; repeat split; auto; repeat constructor.

(** ** The handlers *)

Section BridgeFacts.

Context `{Runtime}.

Lemma member_defined (k : string) (v : value) :
  member_opt k v ≠ VUndefined → member k v = Some (member_opt k v).
Proof. destruct v; cbn; congruence. Qed.

Lemma member_inv (k : string) (v x : value) :
  member k v = Some x → x = member_opt k v.
Proof. destruct v; cbn; congruence. Qed.

Lemma member_str (k : string) (v : value) (s : string) :
  member_opt k v = VStr s → member k v = Some (VStr s).
Proof. intros E. rewrite member_defined; rewrite E; congruence. Qed.

Lemma member_truthy (k : string) (v : value) :
  truthy (member_opt k v) = true → member k v = Some (member_opt k v).
Proof.
  intros E. apply member_defined. intros E'. rewrite E' in E. discriminate.
Qed.

(** *** Identifiers *)

Lemma sendToFrontend_ids data : respects same_ids (sendToFrontend data).
Proof.
  unfold sendToFrontend, console.
  respects_with same_ids_refl same_ids_trans ids_base.
Qed.

Lemma elevenLabsWs_on_message_ids data :
  respects same_ids (elevenLabsWs_on_message data).
Proof.
  unfold elevenLabsWs_on_message, sendToFrontend, console.
  respects_with same_ids_refl same_ids_trans ids_base.
Qed.

Lemma ws_on_message_ids msg :
  is_start msg = false → respects same_ids (ws_on_message msg).
Proof.
  intros Hns.
  unfold ws_on_message, elevenLabsWs_close, console.
  apply (respects_try_catch _ same_ids_trans);
    [|intros; respects_with same_ids_refl same_ids_trans ids_base].
  apply (respects_bind_lift _ same_ids_refl). intros message Hp.
  apply (respects_bind_lift _ same_ids_refl). intros event He.
  unfold is_start in Hns. rewrite Hp in Hns.
  apply member_inv in He. subst event. rewrite Hns.
  respects_with same_ids_refl same_ids_trans ids_base.
Qed.

Lemma handle_ids (ev : event) (w : world) :
  no_start ev → same_ids w (handle ev w).1 (handle ev w).2.
Proof.
  intros Hns.
  assert (G : ∀ m w', respects same_ids m → same_ids w w' [] →
              same_ids w (exec m w').1 (exec m w').2).
  { intros m w' Hm H0.
    apply (respects_exec _ same_ids_trans m w w' [] Hm H0). }
  destruct ev; cbn [handle]; repeat case_match;
    try apply same_ids_refl; apply G; try (split; reflexivity).
  all: try (apply elevenLabsWs_on_message_ids).
  all: try (apply ws_on_message_ids; now apply Hns).
  all: unfold setupElevenLabs_resume, getSignedUrl, elevenLabsWs_on_open,
         elevenLabsWs_on_close, elevenLabsWs_on_error, ws_on_close,
         ws_on_error, elevenLabsWs_close, transcription_stream,
         clientWs_on_close, clientWs_on_error, console;
       respects_with same_ids_refl same_ids_trans ids_base.
Qed.


(** *** The telephony socket and the AI setup *)

Lemma handle_telephony_kept (ev : event) (w : world) :
  ev ≠ OnTwilioClose → telephony_kept w (handle ev w).1 (handle ev w).2.
Proof.
  intros Hev.
  assert (G : ∀ m w', respects telephony_kept m → telephony_kept w w' [] →
              telephony_kept w (exec m w').1 (exec m w').2).
  { intros m w' Hm H0.
    apply (respects_exec _ telephony_kept_trans m w w' [] Hm H0). }
  destruct ev; cbn [handle]; try congruence.
  1: { intros Ha. rewrite Ha. cbn. auto. }
  all: repeat case_match;
    first [ apply telephony_kept_refl
          | apply G; [|intros ?; repeat split; auto] ].
  all: unfold elevenLabsWs_on_message, sendToFrontend, ws_on_message,
         elevenLabsWs_on_open, elevenLabsWs_on_close, elevenLabsWs_on_error,
         ws_on_error, elevenLabsWs_close, transcription_stream,
         clientWs_on_close, clientWs_on_error, console;
       respects_with telephony_kept_refl telephony_kept_trans telephony_base.
Qed.

Lemma run_telephony_kept (evs : list event) (w : world) :
  Forall (λ ev, ev ≠ OnTwilioClose) evs →
  telephony_kept w (run evs w).1 (run evs w).2.
Proof.
  apply (respects_run _ telephony_kept_refl telephony_kept_trans).
  apply handle_telephony_kept.
Qed.

(** How [setupElevenLabs] ends once the request has settled: a socket is
    constructed, or the [catch] block logs and nothing else happens. *)
Lemma setup_outcome (r : response) (w : world) :
  (∃ url, exec (setupElevenLabs_resume r) w
          = (set_elevenLabsWs (Some CONNECTING) w, [NewWebSocket url]))
  ∨ (∃ out e, exec (setupElevenLabs_resume r) w = (w, out)
       ∧ last out = Some (Console (SetupError e))
       ∧ Forall (λ a, starts_or_ends_leg a = false) out).
Proof.
  unfold exec, setupElevenLabs_resume, getSignedUrl, try_catch, lift,
    console, emit, write, throw, mbind, M_bind, mret, M_ret.
  destruct r as [|[|] statusText [data|]]; cbn.
  2: destruct (member "signed_url" data) as [url|]; cbn.
  2: destruct (WebSocket_accepts url) eqn:Hacc; cbn.
  2: { left. exists url. destruct w; reflexivity. }
  all: right; eexists _, _; split; [reflexivity|];
    split; [reflexivity | repeat constructor].
Qed.

End BridgeFacts.

(** * The claims *)

Section Claims.

Context `{Runtime}.

Ltac handler :=
  unfold exec, ws_on_message, ws_on_close, ws_on_error,
    elevenLabsWs_on_message, elevenLabsWs_on_open, elevenLabsWs_on_close,
    elevenLabsWs_on_error, elevenLabsWs_close, sendToFrontend,
    setupElevenLabs_resume, getSignedUrl, transcription_stream,
    clientWs_on_close, clientWs_on_error, console, try_catch, lift, read,
    write, emit, throw, when, mbind, M_bind, mret, M_ret.

(** *** Telephony media frames *)

Lemma media_frame_members (message : value) :
  member_opt "event" message = VStr "media" →
  member "event" message = Some (VStr "media")
  ∧ member "media" message = Some (member_opt "media" message).
Proof.
  destruct message; cbn; intros E; try discriminate. rewrite E. auto.
Qed.

Lemma media_dropped (w : world) (msg : frame) (message : value) :
  JSON_parse msg = Some message →
  member_opt "event" message = VStr "media" →
  elevenLabs_open w = false →
  exec (ws_on_message msg) w = (w, []).
Proof.
  intros Hp He Ho.
  destruct (media_frame_members _ He) as [Hev Hm].
  handler. rewrite Hp, Hev. cbn. rewrite Ho. reflexivity.
Qed.

Lemma media_forwarded (w : world) (msg : frame) (message : value)
    (payload : string) :
  JSON_parse msg = Some message →
  member_opt "event" message = VStr "media" →
  member_opt "payload" (member_opt "media" message) = VStr payload →
  elevenLabs_open w = true →
  exec (ws_on_message msg) w
  = (w, [Send ElevenLabs
           (JSON_stringify
              (VObj [("user_audio_chunk",
                       VStr (Base64.encode (Base64.decode payload)))]))]).
Proof.
  intros Hp He Hpl Ho.
  destruct (media_frame_members _ He) as [Hev Hm].
  handler. rewrite Hp, Hev. cbn. rewrite Ho, Hm. cbn.
  rewrite (member_str _ _ _ Hpl). reflexivity.
Qed.

(** C1, as amended.  A telephony media frame is forwarded to the AI
    connection exactly when that connection is open at the moment the
    frame arrives, whether or not a start event has been received; when
    it is not open the frame is dropped: nothing is sent, nothing is
    kept, the state is unchanged.  The AI leg is set up from the moment
    the telephony connection is accepted. *)
Theorem media_forwarded_iff_ai_open (w : world) (msg : frame)
    (message : value) (payload : string) :
  JSON_parse msg = Some message →
  member_opt "event" message = VStr "media" →
  member_opt "payload" (member_opt "media" message) = VStr payload →
  (elevenLabs_open w = false → exec (ws_on_message msg) w = (w, []))
  ∧ (elevenLabs_open w = true →
       exec (ws_on_message msg) w
       = (w, [Send ElevenLabs
                (JSON_stringify
                   (VObj [("user_audio_chunk",
                            VStr (Base64.encode (Base64.decode payload)))]))]))
  ∧ accepted.2 = [Console TwilioConnected; Fetch].
Proof.
  intros Hp He Hpl. split; [|split].
  - now apply media_dropped with message.
  - now apply media_forwarded with message.
  - reflexivity.
Qed.

(** C7, as amended.  The [user_audio_chunk] forwarded for a media frame
    is the canonical base64 of the bytes its payload decodes to; it
    equals the payload exactly when the payload is itself canonical
    base64, that is, what the encoder writes for some bytes. *)
Theorem forwarded_chunk_is_canonical_reencoding (w : world) (msg : frame)
    (message : value) (payload : string) :
  JSON_parse msg = Some message →
  member_opt "event" message = VStr "media" →
  member_opt "payload" (member_opt "media" message) = VStr payload →
  elevenLabs_open w = true →
  exec (ws_on_message msg) w
  = (w, [Send ElevenLabs
           (Text (VObj [("user_audio_chunk",
                          VStr (Base64.encode (Base64.decode payload)))]))])
  ∧ (Base64.encode (Base64.decode payload) = payload
     ↔ ∃ bs, payload = Base64.encode bs).
Proof.
  intros Hp He Hpl Ho. split.
  - now apply media_forwarded with message.
  - split.
    + intros E. now exists (Base64.decode payload).
    + intros [bs ->]. now rewrite Base64Facts.decode_encode.
Qed.

(** *** Setup failure and teardown *)

(** C2, as amended.  When the signed-URL fetch or the construction of
    the AI socket fails, the failure is logged and nothing else happens:
    [elevenLabsWs] and the telephony socket are left as they were.  Once
    [setupElevenLabs] is past its [await], however it ended, no event
    other than the telephony peer's own close makes the program close
    the telephony socket, fetch a signed URL or construct a socket
    again: the telephony connection is kept open without an AI peer, and
    nothing is retried. *)
Theorem setup_failure_leaves_telephony_open :
  (∀ r w e,
     awaiting w = true →
     In (Console (SetupError e)) (handle (OnSignedUrl r) w).2 →
     ws (handle (OnSignedUrl r) w).1 = ws w
     ∧ elevenLabsWs (handle (OnSignedUrl r) w).1 = elevenLabsWs w
     ∧ awaiting (handle (OnSignedUrl r) w).1 = false
     ∧ Forall (λ a, starts_or_ends_leg a = false) (handle (OnSignedUrl r) w).2)
  ∧ (∀ w evs,
       awaiting w = false →
       Forall (λ ev, ev ≠ OnTwilioClose) evs →
       ws (run evs w).1 = ws w
       ∧ Forall (λ a, starts_or_ends_leg a = false) (run evs w).2).
Proof.
  split.
  - intros r w e Ha Hin. cbn [handle] in *. rewrite Ha in *.
    destruct (setup_outcome r (set_awaiting false w))
      as [[url E] | (out & e' & E & _ & Hout)]; rewrite E in *; cbn in *.
    + destruct Hin as [Hin|[]]. discriminate.
    + repeat split; auto.
  - intros w evs Ha Hevs.
    destruct (run_telephony_kept evs w Hevs Ha) as (Hw & _ & Hq). auto.
Qed.

(** C3, as amended.  Closing the telephony connection while the AI
    connection is open closes the AI connection; the close of the AI
    connection is only logged and leaves the telephony connection as it
    is. *)
Theorem teardown_telephony_to_ai_only (w : world) :
  (elevenLabsWs w = Some OPEN →
     handle OnTwilioClose w
     = (set_elevenLabsWs (Some CLOSING) (set_ws CLOSED w),
        [Close ElevenLabs; Console (TwilioStreamClosed (callSid w))]))
  ∧ (∀ rs, elevenLabsWs w = Some rs →
       handle OnElevenLabsClose w
       = (set_elevenLabsWs (Some CLOSED) w, [Console ElevenLabsDisconnected])).
Proof.
  split.
  - intros Ho. cbn [handle]. handler. unfold elevenLabs_open. cbn.
    rewrite Ho. reflexivity.
  - intros rs Ho. cbn [handle]. rewrite Ho. reflexivity.
Qed.


(** *** The observer *)

Lemma sendToFrontend_delivers (w : world) (sid : string) (c : conn)
    (o : observer) (data : value) :
  callSid w = VStr sid →
  callClientMap w !! sid = Some c →
  clients w !! c = Some o →
  client_readyState o = OPEN →
  sendToFrontend data w
  = (Normal tt, w, [Send (Frontend c) (JSON_stringify data)]).
Proof.
  intros Hs Hc Ho Hr. unfold sendToFrontend.
  handler. rewrite Hs, Hc, Ho. cbn. rewrite Hr. reflexivity.
Qed.

Lemma sendToFrontend_unregistered (w : world) (sid : string) (data : value) :
  callSid w = VStr sid →
  callClientMap w !! sid = None →
  sendToFrontend data w = (Normal tt, w, [Console (NoFrontendClient (VStr sid))]).
Proof.
  intros Hs Hc. unfold sendToFrontend.
  handler. rewrite Hs, Hc. reflexivity.
Qed.

Lemma typed_message_members (message : value) (t : string) :
  member_opt "type" message = VStr t →
  member "type" message = Some (VStr t)
  ∧ ∀ k, member k message = Some (member_opt k message).
Proof.
  destruct message; cbn; intros E; try discriminate. rewrite E. auto.
Qed.

(** C4, as amended.  For a call with a registered, open observer the
    server pushes the transcript events [{event: "transcript", speaker:
    "Agent" | "User", text}] to that observer; the media and clear frames
    translated from AI audio and interruption messages go to the
    telephony connection only: handling such a message sends nothing to
    any observer. *)
Theorem observer_gets_transcripts_only (w : world) (data : frame)
    (message : value) :
  JSON_parse data = Some message →
  (∀ sid c o,
     callSid w = VStr sid →
     callClientMap w !! sid = Some c →
     clients w !! c = Some o →
     client_readyState o = OPEN →
     (member_opt "type" message = VStr "agent_response" →
        exec (elevenLabsWs_on_message data) w
        = (w, [Send (Frontend c)
                 (JSON_stringify
                    (VObj [("event", VStr "transcript");
                           ("speaker", VStr "Agent");
                           ("text",
                             member_opt "agent_response"
                               (member_opt "agent_response_event" message))]))]))
     ∧ (member_opt "type" message = VStr "user_transcript" →
          exec (elevenLabsWs_on_message data) w
          = (w, [Send (Frontend c)
                   (JSON_stringify
                      (VObj [("event", VStr "transcript");
                             ("speaker", VStr "User");
                             ("text",
                               member_opt "user_transcript"
                                 (member_opt "user_transcription_event"
                                    message))]))])))
  ∧ (member_opt "type" message = VStr "audio"
     ∨ member_opt "type" message = VStr "interruption" →
     Forall (λ a, to_frontend a = false)
            (exec (elevenLabsWs_on_message data) w).2).
Proof.
  intros Hp. split.
  - intros sid c o Hs Hc Ho Hr. split; intros Ht;
      destruct (typed_message_members _ _ Ht) as [Hty Hm];
      unfold exec, elevenLabsWs_on_message, try_catch, lift, mbind, M_bind,
        mret, M_ret;
      rewrite Hp, Hty, !Hm; cbn -[sendToFrontend];
      erewrite sendToFrontend_delivers by eassumption; reflexivity.
  - intros [Ht|Ht]; destruct (typed_message_members _ _ Ht) as [Hty Hm];
      handler; rewrite Hp, Hty; cbn; rewrite ?Hm; cbn;
      repeat (case_match; cbn in *; simplify_eq); repeat constructor.
Qed.

(** *** The session identifiers *)

Lemma start_assigns (w : world) (msg : frame) (message : value)
    (fields : list (string * value)) :
  JSON_parse msg = Some message →
  member_opt "event" message = VStr "start" →
  member_opt "start" message = VObj fields →
  exec (ws_on_message msg) w
  = (set_customParameters (own "customParameters" fields)
       (set_callSid (own "callSid" fields)
          (set_streamSid (own "streamSid" fields) w)),
     [Console (StreamStarted (own "callSid" fields))]).
Proof.
  intros Hp He Hs.
  destruct message; cbn in He; try discriminate.
  handler. rewrite Hp. cbn. rewrite He. cbn in *. rewrite Hs. reflexivity.
Qed.

(** C5, as amended.  Within a session [streamSid] and [callSid] are
    assigned by every start event, each time to the values that event
    carries, and are changed by nothing else: no other telephony frame
    and no event of the AI connection, of the signed-URL fetch or of an
    observer touches them. *)
Theorem ids_follow_latest_start :
  (∀ ev w, no_start ev →
     streamSid (handle ev w).1 = streamSid w
     ∧ callSid (handle ev w).1 = callSid w)
  ∧ (∀ w msg message fields,
       JSON_parse msg = Some message →
       member_opt "event" message = VStr "start" →
       member_opt "start" message = VObj fields →
       streamSid (handle (OnTwilioMessage msg) w).1 = own "streamSid" fields
       ∧ callSid (handle (OnTwilioMessage msg) w).1 = own "callSid" fields).
Proof.
  split.
  - intros ev w Hns. apply (handle_ids ev w Hns).
  - intros w msg message fields Hp He Hs. cbn [handle].
    rewrite (start_assigns w msg message fields Hp He Hs). split; reflexivity.
Qed.

(** After a start event carrying [S], and for as long as no further
    start frame arrives, [streamSid] is [S]. *)
Lemma streamSid_after_start (w : world) (msg : frame) (m S : value)
    (evs : list event) :
  JSON_parse msg = Some m →
  member_opt "event" m = VStr "start" →
  member_opt "streamSid" (member_opt "start" m) = S →
  truthy S = true →
  Forall no_start evs →
  streamSid (run evs (handle (OnTwilioMessage msg) w).1).1 = S.
Proof.
  intros Hp He HS Ht Hevs.
  destruct (member_opt "start" m) as [| | | | | |fields] eqn:Hst;
    cbn in HS; subst S; try discriminate.
  destruct (respects_run _ same_ids_refl same_ids_trans no_start handle_ids
              evs (handle (OnTwilioMessage msg) w).1 Hevs) as [Hsid _].
  rewrite Hsid. cbn [handle].
  now rewrite (start_assigns w msg m fields Hp He Hst).
Qed.

(** *** AI messages towards the telephony side *)

Lemma audio_translated (w : world) (data : frame) (message chunk : value) :
  JSON_parse data = Some message →
  member_opt "type" message = VStr "audio" →
  truthy (streamSid w) = true →
  truthy chunk = true →
  member_opt "chunk" (member_opt "audio" message) = chunk
  ∨ (truthy (member_opt "chunk" (member_opt "audio" message)) = false
     ∧ member_opt "audio_base_64" (member_opt "audio_event" message) = chunk) →
  exec (elevenLabsWs_on_message data) w
  = (w, [Send Twilio
           (JSON_stringify
              (VObj [("event", VStr "media");
                     ("streamSid", streamSid w);
                     ("media", VObj [("payload", chunk)])]))]).
Proof.
  intros Hp Hty Hsid Hch Hcase.
  destruct (typed_message_members _ _ Hty) as [Htype Hm].
  handler. rewrite Hp, Htype. cbn. rewrite Hsid, !Hm. cbn.
  destruct Hcase as [E | [Hno E]].
  - rewrite E, Hch. cbn. rewrite member_truthy; rewrite E; auto.
  - rewrite Hno. cbn. rewrite E, Hch. cbn.
    rewrite member_truthy; rewrite E; auto.
Qed.

Lemma audio_without_streamSid (w : world) (data : frame) (message : value) :
  JSON_parse data = Some message →
  member_opt "type" message = VStr "audio" →
  truthy (streamSid w) = false →
  exec (elevenLabsWs_on_message data) w = (w, [Console AudioNoStreamSid]).
Proof.
  intros Hp Hty Hsid.
  destruct (typed_message_members _ _ Hty) as [Htype Hm].
  handler. rewrite Hp, Htype. cbn. rewrite Hsid. reflexivity.
Qed.

(** C6, as amended.  While [streamSid] is known to be [S], which it is
    once a start event with [streamSid = S] has been processed and for
    as long as no other start frame follows, every AI audio message that
    carries a chunk, under [audio.chunk] or under
    [audio_event.audio_base_64], is sent on the telephony connection as
    [{event: "media", streamSid: S, media: {payload: chunk}}]; when no
    [streamSid] is known the chunk is dropped and logged. *)
Theorem audio_chunk_tagged_with_streamSid (data : frame)
    (message chunk : value) :
  JSON_parse data = Some message →
  member_opt "type" message = VStr "audio" →
  (∀ w S,
     streamSid w = S →
     truthy S = true →
     truthy chunk = true →
     member_opt "chunk" (member_opt "audio" message) = chunk
     ∨ (truthy (member_opt "chunk" (member_opt "audio" message)) = false
        ∧ member_opt "audio_base_64" (member_opt "audio_event" message)
          = chunk) →
     exec (elevenLabsWs_on_message data) w
     = (w, [Send Twilio
              (JSON_stringify
                 (VObj [("event", VStr "media");
                        ("streamSid", S);
                        ("media", VObj [("payload", chunk)])]))]))
  ∧ (∀ w msg m S evs,
       JSON_parse msg = Some m →
       member_opt "event" m = VStr "start" →
       member_opt "streamSid" (member_opt "start" m) = S →
       truthy S = true →
       Forall no_start evs →
       streamSid (run evs (handle (OnTwilioMessage msg) w).1).1 = S)
  ∧ (∀ w, truthy (streamSid w) = false →
       exec (elevenLabsWs_on_message data) w
       = (w, [Console AudioNoStreamSid])).
Proof.
  intros Hp Hty. split; [|split].
  - intros w S HS Ht Hch Hcase. subst S.
    now apply audio_translated with message.
  - intros w msg m S evs. apply streamSid_after_start.
  - intros w Hs. now apply audio_without_streamSid with message.
Qed.

(** C8.  An AI interruption message received while [streamSid] is known
    to be [S], as it is after a start event carrying [S], makes the
    program send exactly [{event: "clear", streamSid: S}] on the
    telephony connection and nothing else; while no [streamSid] is known
    it sends nothing. *)
Theorem interruption_clears_stream (data : frame) (message : value) :
  JSON_parse data = Some message →
  member_opt "type" message = VStr "interruption" →
  (∀ w S,
     streamSid w = S →
     truthy S = true →
     exec (elevenLabsWs_on_message data) w
     = (w, [Send Twilio
              (JSON_stringify
                 (VObj [("event", VStr "clear"); ("streamSid", S)]))]))
  ∧ (∀ w msg m S evs,
       JSON_parse msg = Some m →
       member_opt "event" m = VStr "start" →
       member_opt "streamSid" (member_opt "start" m) = S →
       truthy S = true →
       Forall no_start evs →
       streamSid (run evs (handle (OnTwilioMessage msg) w).1).1 = S)
  ∧ (∀ w, truthy (streamSid w) = false →
       exec (elevenLabsWs_on_message data) w = (w, [])).
Proof.
  intros Hp Hty.
  destruct (typed_message_members _ _ Hty) as [Htype Hm].
  split; [|split].
  - intros w S HS Ht. subst S.
    handler. rewrite Hp, Htype. cbn. rewrite Ht. reflexivity.
  - intros w msg m S evs. apply streamSid_after_start.
  - intros w Hs. handler. rewrite Hp, Htype. cbn. rewrite Hs. reflexivity.
Qed.

(** *** Frames that cannot be processed *)

(** Whenever the [catch] block of the telephony handler runs, whatever
    the frame, nothing else has happened. *)
Lemma ws_on_message_thrown (msg : frame) (w : world) (e : error) :
  In (Console (TwilioMessageError e)) (exec (ws_on_message msg) w).2 →
  exec (ws_on_message msg) w = (w, [Console (TwilioMessageError e)]).
Proof.
  handler. destruct msg as [message|raw]; cbn.
  2: { intros [E|[]]. now inversion E. }
  destruct (member "event" message) as [event|] eqn:Hev; cbn.
  2: { intros [E|[]]. now inversion E. }
  assert (Hm : ∀ k, member k message = Some (member_opt k message)).
  { destruct message; cbn in *; try discriminate; auto. }
  rewrite !Hm.
  destruct (is_str event "start"); cbn.
  - destruct (member_opt "start" message); cbn;
      intros Hin; repeat destruct Hin as [Hin|Hin]; try discriminate;
      try contradiction; now inversion Hin.
  - destruct (is_str event "media" && elevenLabs_open w); cbn.
    + destruct (member "payload" (member_opt "media" message)) as [p|]; cbn.
      2: { intros [E|[]]. now inversion E. }
      destruct (Buffer_from p); cbn.
      * intros [E|[]]. discriminate.
      * intros [E|[]]. now inversion E.
    + destruct (is_str event "stop"); cbn; [destruct (elevenLabs_open w)|];
        cbn; intros Hin; repeat destruct Hin as [Hin|Hin]; try discriminate;
        contradiction.
Qed.

(** Likewise for the handler of AI messages. *)
Lemma elevenLabsWs_on_message_thrown (data : frame) (w : world) (e : error) :
  In (Console (ElevenLabsMessageError e))
     (exec (elevenLabsWs_on_message data) w).2 →
  exec (elevenLabsWs_on_message data) w
  = (w, [Console (ElevenLabsMessageError e)]).
Proof.
  handler. destruct data as [message|raw]; cbn.
  2: { intros [E|[]]. now inversion E. }
  destruct (member "type" message) as [type|] eqn:Hty; cbn.
  2: { intros [E|[]]. now inversion E. }
  assert (Hm : ∀ k, member k message = Some (member_opt k message)).
  { destruct message; cbn in *; try discriminate; auto. }
  rewrite !Hm. cbn.
  repeat (case_match; cbn in *; simplify_eq);
    intros Hin; repeat destruct Hin as [Hin|Hin]; try discriminate;
    try contradiction; now inversion Hin.
Qed.

(** C9.  A frame that [JSON.parse] rejects, on the telephony or on the
    AI connection, is logged and ignored: the state is unchanged, no
    socket is closed or written to, and the events that follow are
    processed as if the frame had not arrived. *)
Theorem malformed_frame_ignored (raw : string) (w : world) :
  handle (OnTwilioMessage (Garbled raw)) w
  = (w, [Console (TwilioMessageError SyntaxError)])
  ∧ exec (elevenLabsWs_on_message (Garbled raw)) w
    = (w, [Console (ElevenLabsMessageError SyntaxError)])
  ∧ (handle (OnElevenLabsMessage (Garbled raw)) w).1 = w
  ∧ (∀ evs,
       run (OnTwilioMessage (Garbled raw) :: evs) w
       = ((run evs w).1,
          Console (TwilioMessageError SyntaxError) :: (run evs w).2))
  ∧ (∀ evs,
       (run (OnElevenLabsMessage (Garbled raw) :: evs) w).1 = (run evs w).1).
Proof.
  assert (E1 : handle (OnTwilioMessage (Garbled raw)) w
               = (w, [Console (TwilioMessageError SyntaxError)]))
    by reflexivity.
  assert (E2 : (handle (OnElevenLabsMessage (Garbled raw)) w).1 = w).
  { cbn [handle]. now destruct (elevenLabsWs w). }
  repeat split; auto.
  - intros evs. cbn [run]. rewrite E1.
    now destruct (run evs w).
  - intros evs. cbn [run].
    destruct (handle (OnElevenLabsMessage (Garbled raw)) w) as [w1 out1].
    cbn in E2. subst w1. now destruct (run evs w).
Qed.

(** *** The registry *)

Lemma run_cons (ev : event) (evs : list event) (w : world) :
  run (ev :: evs) w
  = ((run evs (handle ev w).1).1, (handle ev w).2 ++ (run evs (handle ev w).1).2).
Proof.
  cbn [run]. destruct (handle ev w) as [w1 out1]; cbn.
  now destruct (run evs w1).
Qed.

Lemma observer_attaches (sid : string) (c : conn) (w : world) :
  handle (OnFrontendConnect sid c) w
  = (set_callClientMap (<[sid := c]> (callClientMap w))
       (set_clients (<[c := Observer sid OPEN]> (clients w)) w),
     [Console (FrontendConnected sid)]).
Proof. reflexivity. Qed.

Lemma observer_closes (c : conn) (o : observer) (w : world) :
  clients w !! c = Some o →
  handle (OnFrontendClose c) w
  = (set_callClientMap (delete (route_callSid o) (callClientMap w))
       (set_clients (<[c := Observer (route_callSid o) CLOSED]> (clients w)) w),
     [Console (FrontendDisconnected (route_callSid o))]).
Proof. intros E. cbn [handle]. rewrite E. reflexivity. Qed.

Lemma observer_errors (c : conn) (o : observer) (w : world) :
  clients w !! c = Some o →
  handle (OnFrontendError c) w
  = (set_callClientMap (delete (route_callSid o) (callClientMap w)) w,
     [Console (FrontendError (route_callSid o))]).
Proof. intros E. cbn [handle]. rewrite E. reflexivity. Qed.

(** C10.  Unregistration is keyed by [callSid], not by the connection:
    after a first observer, then a second one, have attached for the same
    [callSid], the close or the error of the first removes the entry of
    the second; the second is still open, yet a send for that [callSid]
    only logs the warning. *)
Theorem unregister_keyed_by_callSid (w : world) (C : string)
    (O1 O2 : conn) (ev : event) (data : value) :
  O1 ≠ O2 →
  ev = OnFrontendClose O1 ∨ ev = OnFrontendError O1 →
  callSid w = VStr C →
  callClientMap
    (run [OnFrontendConnect C O1; OnFrontendConnect C O2; ev] w).1 !! C
  = None
  ∧ client_readyState <$>
      clients (run [OnFrontendConnect C O1; OnFrontendConnect C O2; ev] w).1
        !! O2
    = Some OPEN
  ∧ exec (sendToFrontend data)
         (run [OnFrontendConnect C O1; OnFrontendConnect C O2; ev] w).1
    = ((run [OnFrontendConnect C O1; OnFrontendConnect C O2; ev] w).1,
       [Console (NoFrontendClient (VStr C))]).
Proof.
  intros Hne Hev Hsid.
  set (w3 := (run [OnFrontendConnect C O1; OnFrontendConnect C O2; ev] w).1).
  set (w2 := (handle (OnFrontendConnect C O2)
                (handle (OnFrontendConnect C O1) w).1).1).
  assert (Hfirst : clients w2 !! O1 = Some (Observer C OPEN)).
  { subst w2. rewrite !observer_attaches. cbn.
    rewrite lookup_insert_ne by congruence. apply lookup_insert_eq. }
  assert (Hreg : callClientMap w3 !! C = None
                 ∧ client_readyState <$> clients w3 !! O2 = Some OPEN
                 ∧ callSid w3 = VStr C).
  { subst w3. rewrite !run_cons. cbn [run fst]. fold w2.
    destruct Hev as [-> | ->];
      [ rewrite (observer_closes O1 _ w2 Hfirst)
      | rewrite (observer_errors O1 _ w2 Hfirst) ];
      subst w2; rewrite !observer_attaches; cbn;
      (split; [apply lookup_delete_eq|]); split; auto.
    - rewrite lookup_insert_ne by congruence.
      now rewrite lookup_insert_eq.
    - now rewrite lookup_insert_eq. }
  destruct Hreg as (Hnone & Hopen & Hs).
  repeat split; auto.
  unfold exec. now rewrite (sendToFrontend_unregistered w3 C data Hs Hnone).
Qed.

End Claims.

(** * Concrete runs *)

(** The frames and states below are those of a call with
    [streamSid = "ST1"] and [callSid = "CA1"], on [strict_runtime]. *)

Lemma media_forwarded_iff_ai_open_witness :
  elevenLabs_open established = true
  ∧ @exec (@ws_on_message strict_runtime (media_frame (VStr "QUJD")))
          established
    = (established,
       [Send ElevenLabs (Text (VObj [("user_audio_chunk", VStr "QUJD")]))]).
Proof.
  split; [reflexivity|].
  apply (@media_forwarded_iff_ai_open strict_runtime established
           (media_frame (VStr "QUJD"))
           (VObj [("event", VStr "media");
                  ("media", VObj [("payload", VStr "QUJD")])])
           "QUJD"); reflexivity.
Defined.

(** C1, as stated, fails: no start event has arrived, yet the AI socket
    has been constructed and opened and the media frame is forwarded on
    it. *)
Lemma media_before_start_forwarded :
  streamSid media_before_start.1 = VNull
  ∧ In (NewWebSocket (VStr "wss://api.elevenlabs.io/v1/convai"))
       media_before_start.2
  ∧ last media_before_start.2
    = Some (Send ElevenLabs (Text (VObj [("user_audio_chunk", VStr "QUJD")]))).
Proof. vm_compute. repeat split; auto. Qed.

Lemma forwarded_chunk_is_canonical_reencoding_witness :
  elevenLabs_open established = true
  ∧ @exec (@ws_on_message strict_runtime (media_frame (VStr "QUJD")))
          established
    = (established,
       [Send ElevenLabs
          (Text (VObj [("user_audio_chunk",
                         VStr (Base64.encode (Base64.decode "QUJD")))]))]).
Proof.
  split; [reflexivity|].
  apply (@forwarded_chunk_is_canonical_reencoding strict_runtime established
           (media_frame (VStr "QUJD"))
           (VObj [("event", VStr "media");
                  ("media", VObj [("payload", VStr "QUJD")])])
           "QUJD"); reflexivity.
Defined.

(** C7, as stated, fails: the decoder skips the space inside the
    payload, so the chunk forwarded differs from the payload received. *)
Lemma reencoding_not_identity :
  @exec (@ws_on_message strict_runtime (media_frame (VStr "QUJD QUJD")))
        established
  = (established,
     [Send ElevenLabs (Text (VObj [("user_audio_chunk", VStr "QUJDQUJD")]))])
  ∧ "QUJDQUJD" ≠ "QUJD QUJD".
Proof. split; [vm_compute; reflexivity | discriminate]. Qed.

Lemma setup_failure_leaves_telephony_open_witness :
  awaiting (@accepted strict_runtime).1 = true
  ∧ ws (@handle strict_runtime (OnSignedUrl NetworkFailure)
          (@accepted strict_runtime).1).1
    = ws (@accepted strict_runtime).1.
Proof.
  split; [reflexivity|].
  apply (proj1 (@setup_failure_leaves_telephony_open strict_runtime)
           NetworkFailure (@accepted strict_runtime).1
           TypeError);
    [reflexivity | right; left; reflexivity].
Defined.

(** C2, as stated, fails: the fetch of the signed URL fails, both
    [catch] blocks log, and the telephony socket stays open with no AI
    socket; frames that follow are accepted and the media is dropped. *)
Lemma setup_failure_telephony_not_closed :
  ws failed_setup.1 = OPEN
  ∧ elevenLabsWs failed_setup.1 = None
  ∧ failed_setup.2
    = [Console (SignedUrlError TypeError);
       Console (SetupError TypeError);
       Console (StreamStarted (VStr "CA1"))].
Proof. vm_compute. repeat split; auto. Qed.

Lemma teardown_telephony_to_ai_only_witness :
  elevenLabsWs established = Some OPEN
  ∧ @handle strict_runtime OnTwilioClose established
    = (set_elevenLabsWs (Some CLOSING) (set_ws CLOSED established),
       [Close ElevenLabs; Console (TwilioStreamClosed (VStr "CA1"))]).
Proof.
  split; [reflexivity|].
  apply (proj1 (@teardown_telephony_to_ai_only strict_runtime established)).
  reflexivity.
Defined.

(** C3, as stated, fails: the AI connection closes while the telephony
    connection is open; the program logs and the telephony socket is
    neither closed nor asked to close. *)
Lemma ai_close_leaves_telephony_open :
  ws established = OPEN
  ∧ elevenLabsWs established = Some OPEN
  ∧ @handle strict_runtime OnElevenLabsClose established
    = (set_elevenLabsWs (Some CLOSED) established,
       [Console ElevenLabsDisconnected])
  ∧ ws (@handle strict_runtime OnElevenLabsClose established).1 = OPEN.
Proof. vm_compute. repeat split; auto. Qed.

Lemma observer_gets_transcripts_only_witness :
  callClientMap observed !! "CA1" = Some 7
  ∧ exec (elevenLabsWs_on_message (agent_response_message (VStr "Hello")))
         observed
    = (observed,
       [Send (Frontend 7)
          (Text (VObj [("event", VStr "transcript");
                       ("speaker", VStr "Agent");
                       ("text", VStr "Hello")]))]).
Proof.
  split; [reflexivity|].
  apply (proj1 (observer_gets_transcripts_only observed
                  (agent_response_message (VStr "Hello"))
                  (VObj [("type", VStr "agent_response");
                         ("agent_response_event",
                           VObj [("agent_response", VStr "Hello")])])
                  eq_refl)
           "CA1" 7 (Observer "CA1" OPEN)); reflexivity.
Defined.

(** C4, as stated, fails: an open observer is registered for the call,
    an audio chunk and an interruption arrive from the AI, and the media
    and clear frames go to the telephony socket alone. *)
Lemma audio_not_mirrored_to_observer :
  callSid observed = VStr "CA1"
  ∧ callClientMap observed !! "CA1" = Some 7
  ∧ client_readyState <$> clients observed !! 7 = Some OPEN
  ∧ (@run strict_runtime
       [OnElevenLabsMessage (audio_message (VStr "QUJD"));
        OnElevenLabsMessage interruption_message]
       observed).2
    = [Send Twilio
         (Text (VObj [("event", VStr "media");
                      ("streamSid", VStr "ST1");
                      ("media", VObj [("payload", VStr "QUJD")])]));
       Send Twilio
         (Text (VObj [("event", VStr "clear"); ("streamSid", VStr "ST1")]))].
Proof. repeat split; vm_compute; reflexivity. Qed.

Lemma ids_follow_latest_start_witness :
  no_start OnElevenLabsClose
  ∧ streamSid (@handle strict_runtime OnElevenLabsClose established).1
    = streamSid established
  ∧ callSid (@handle strict_runtime OnElevenLabsClose established).1
    = callSid established.
Proof.
  assert (Hns : no_start OnElevenLabsClose) by (intros msg E; discriminate E).
  split; [exact Hns|].
  exact (proj1 (@ids_follow_latest_start strict_runtime)
           OnElevenLabsClose established Hns).
Defined.

(** C5, as stated, fails: a second start event on the same connection
    replaces both identifiers. *)
Lemma second_start_reassigns_ids :
  streamSid started_once = VStr "ST1" ∧ callSid started_once = VStr "CA1"
  ∧ streamSid started_twice = VStr "ST2" ∧ callSid started_twice = VStr "CA2"
  ∧ streamSid started_twice ≠ streamSid started_once
  ∧ callSid started_twice ≠ callSid started_once.
Proof. vm_compute. repeat split; auto; discriminate. Qed.

Lemma audio_chunk_tagged_with_streamSid_witness :
  streamSid established = VStr "ST1"
  ∧ exec (elevenLabsWs_on_message (audio_message (VStr "QUJD"))) established
    = (established,
       [Send Twilio
          (Text (VObj [("event", VStr "media");
                       ("streamSid", VStr "ST1");
                       ("media", VObj [("payload", VStr "QUJD")])]))]).
Proof.
  split; [reflexivity|].
  apply (proj1 (@audio_chunk_tagged_with_streamSid strict_runtime
                  (audio_message (VStr "QUJD"))
                  (VObj [("type", VStr "audio");
                         ("audio", VObj [("chunk", VStr "QUJD")])])
                  (VStr "QUJD") eq_refl eq_refl)
           established (VStr "ST1"));
    try reflexivity.
  left. reflexivity.
Defined.

(** C6, as stated, fails: the chunk arrives after the start event that
    carried [ST1] was processed, yet it is tagged [ST2], the identifier
    of the start event that followed. *)
Lemma audio_after_second_start_retagged :
  last audio_after_restart.2
  = Some (Send Twilio
            (Text (VObj [("event", VStr "media");
                         ("streamSid", VStr "ST2");
                         ("media", VObj [("payload", VStr "QUJD")])])))
  ∧ ¬ In (Send Twilio
            (Text (VObj [("event", VStr "media");
                         ("streamSid", VStr "ST1");
                         ("media", VObj [("payload", VStr "QUJD")])])))
         audio_after_restart.2.
Proof.
  split; [vm_compute; reflexivity|].
  vm_compute. intros Hin.
  repeat destruct Hin as [Hin|Hin]; try discriminate; contradiction.
Qed.

(** The same chunk under the other field name. *)
Example audio_event_chunk_translated :
  exec (elevenLabsWs_on_message (audio_event_message (VStr "QUJD")))
       established
  = (established,
     [Send Twilio
        (Text (VObj [("event", VStr "media");
                     ("streamSid", VStr "ST1");
                     ("media", VObj [("payload", VStr "QUJD")])]))]).
Proof. vm_compute. reflexivity. Qed.

Lemma interruption_clears_stream_witness :
  streamSid established = VStr "ST1"
  ∧ exec (elevenLabsWs_on_message interruption_message) established
    = (established,
       [Send Twilio
          (Text (VObj [("event", VStr "clear"); ("streamSid", VStr "ST1")]))]).
Proof.
  split; [reflexivity|].
  apply (proj1 (@interruption_clears_stream strict_runtime
                  interruption_message
                  (VObj [("type", VStr "interruption")]) eq_refl eq_refl)
           established (VStr "ST1"));
    reflexivity.
Defined.

Lemma unregister_keyed_by_callSid_witness :
  1 ≠ 2
  ∧ callClientMap
      (@run strict_runtime
         [OnFrontendConnect "CA1" 1; OnFrontendConnect "CA1" 2;
          OnFrontendClose 1] established).1 !! "CA1"
    = None
  ∧ client_readyState <$>
      clients
        (@run strict_runtime
           [OnFrontendConnect "CA1" 1; OnFrontendConnect "CA1" 2;
            OnFrontendClose 1] established).1 !! 2
    = Some OPEN.
Proof.
  assert (Hne : 1 ≠ 2) by discriminate.
  split; [exact Hne|].
  destruct (@unregister_keyed_by_callSid strict_runtime established "CA1" 1 2
              (OnFrontendClose 1) VNull Hne (or_introl eq_refl) eq_refl)
    as (Hnone & Hopen & _).
  split; [exact Hnone | exact Hopen].
Defined.

(** * Further properties of the bridge *)

Lemma same_session_refl w : same_session w w [].
Proof. repeat split. Qed.

Lemma same_session_trans w1 w2 w3 out1 out2 :
  same_session w1 w2 out1 → same_session w2 w3 out2 →
  same_session w1 w3 (out1 ++ out2).
Proof. intros (? & ? & ?) (? & ? & ?). repeat split; congruence. Qed.

Lemma only_reports_refl w : only_reports w w [].
Proof. split; [reflexivity | constructor]. Qed.

Lemma only_reports_trans w1 w2 w3 out1 out2 :
  only_reports w1 w2 out1 → only_reports w2 w3 out2 →
  only_reports w1 w3 (out1 ++ out2).
Proof.
  intros [? ?] [? ?]. split; [congruence | now apply Forall_app].
Qed.

Lemma towards_ai_only_refl w : towards_ai_only w w [].
Proof. repeat split; constructor. Qed.

Lemma towards_ai_only_trans w1 w2 w3 out1 out2 :
  towards_ai_only w1 w2 out1 → towards_ai_only w2 w3 out2 →
  towards_ai_only w1 w3 (out1 ++ out2).
Proof.
  intros (? & ? & ? & ? & ?) (? & ? & ? & ? & ?).
  repeat split; try congruence. now apply Forall_app.
Qed.

Lemma setup_untouched_refl w : setup_untouched w w [].
Proof. split; [reflexivity | constructor]. Qed.

Lemma setup_untouched_trans w1 w2 w3 out1 out2 :
  setup_untouched w1 w2 out1 → setup_untouched w2 w3 out2 →
  setup_untouched w1 w3 (out1 ++ out2).
Proof.
  intros [? ?] [? ?]. split; [congruence | now apply Forall_app].
Qed.

Lemma sockets_made_app out1 out2 :
  sockets_made (out1 ++ out2) = sockets_made out1 + sockets_made out2.
Proof. unfold sockets_made. now rewrite List.filter_app, length_app. Qed.

Lemma setup_spent_refl w : setup_spent w w [].
Proof. split; [cbn; lia | constructor]. Qed.

Lemma setup_spent_trans w1 w2 w3 out1 out2 :
  setup_spent w1 w2 out1 → setup_spent w2 w3 out2 →
  setup_spent w1 w3 (out1 ++ out2).
Proof.
  intros [? ?] [? ?]. split; [|now apply Forall_app].
  rewrite sockets_made_app. lia.
Qed.

Lemma ai_left_alone_refl w : ai_left_alone w w [].
Proof. intros ? ?. repeat split; auto. Qed.

Lemma ai_left_alone_trans w1 w2 w3 out1 out2 :
  ai_left_alone w1 w2 out1 → ai_left_alone w2 w3 out2 →
  ai_left_alone w1 w3 (out1 ++ out2).
Proof.
  intros H12 H23 Ha Hs.
  destruct (H12 Ha Hs) as (Ha2 & Hs2 & ?).
  destruct (H23 Ha2 Hs2) as (? & ? & ?).
  repeat split; auto. now apply Forall_app.
Qed.

Lemma telephony_silent_refl w : telephony_silent w w [].
Proof. intros ?. split; auto. Qed.

Lemma telephony_silent_trans w1 w2 w3 out1 out2 :
  telephony_silent w1 w2 out1 → telephony_silent w2 w3 out2 →
  telephony_silent w1 w3 (out1 ++ out2).
Proof.
  intros H12 H23 Hs.
  destruct (H12 Hs) as (Hs2 & ?).
  destruct (H23 Hs2) as (? & ?).
  split; auto. now apply Forall_app.
Qed.

Section Discipline.

Context `{Runtime}.

Ltac unfold_handlers :=
  unfold exec, ws_on_message, ws_on_close, ws_on_error,
    elevenLabsWs_on_message, elevenLabsWs_on_open, elevenLabsWs_on_close,
    elevenLabsWs_on_error, elevenLabsWs_close, sendToFrontend,
    setupElevenLabs_resume, getSignedUrl, transcription_stream,
    clientWs_on_close, clientWs_on_error, console, try_catch, lift, read,
    write, emit, throw, when, mbind, M_bind, mret, M_ret.

(** A [try] whose [catch] block cannot throw runs to its end. *)
Lemma try_catch_completes (body : M unit) (h : error → M unit) (w : world) :
  (∀ e w', (h e w').1.1 = Normal tt) →
  (try_catch body h w).1.1 = Normal tt.
Proof.
  intros Hh. unfold try_catch.
  destruct (body w) as [[[[]|e] w1] out1]; [reflexivity|].
  specialize (Hh e w1). destruct (h e w1) as [[r w2] out2]. exact Hh.
Qed.

(** X1.  No exception leaves a message handler or [setupElevenLabs]:
    whatever the frame, the response and the state, each runs to its
    end, the [catch] block having logged what was thrown. *)
Theorem handlers_never_throw (data : frame) (r : response) (w : world) :
  (ws_on_message data w).1.1 = Normal tt
  ∧ (elevenLabsWs_on_message data w).1.1 = Normal tt
  ∧ (setupElevenLabs_resume r w).1.1 = Normal tt.
Proof.
  repeat split; apply try_catch_completes; reflexivity.
Qed.

(** *** The AI socket *)

Lemma ai_write_when_open (ev : event) (w : world) (a : action) :
  In a (handle ev w).2 → ai_write a = true →
  match a with
  | Close _ => elevenLabsWs w = Some OPEN
               ∧ elevenLabsWs (handle ev w).1 = Some CLOSING
  | _ => elevenLabsWs (handle ev w).1 = Some OPEN
  end.
Proof.
  destruct ev; cbn [handle]; unfold_handlers; unfold elevenLabs_open.
  all: repeat (case_match; cbn in *; simplify_eq); cbn.
  all: intros Hin Ha; repeat destruct Hin as [Hin|Hin]; subst;
    try discriminate; try contradiction; cbn in *; auto.
  all: match goal with
       | Hc : _ && false = true |- _ =>
           rewrite andb_false_r in Hc; discriminate Hc
       end.
Qed.


Lemma handle_shut_kept (ev : event) (w : world) :
  awaiting w = false → ai_shut w = true →
  awaiting (handle ev w).1 = false ∧ ai_shut (handle ev w).1 = true.
Proof.
  unfold ai_shut.
  destruct ev; cbn [handle]; unfold_handlers; unfold elevenLabs_open.
  all: intros Ha Hs.
  all: repeat (case_match; cbn in *; simplify_eq); cbn; auto.
Qed.

Lemma handle_ai_left_alone (ev : event) (w : world) :
  ai_left_alone w (handle ev w).1 (handle ev w).2.
Proof.
  intros Ha Hs.
  destruct (handle_shut_kept ev w Ha Hs) as [Ha' Hs'].
  repeat split; auto.
  apply List.Forall_forall. intros a Hin.
  destruct (ai_write a) eqn:Hw; [exfalso|reflexivity].
  pose proof (ai_write_when_open ev w a Hin Hw) as Hopen.
  unfold ai_shut in Hs, Hs'.
  destruct a as [[| |c] f|[| |c]| | |l]; try discriminate Hw.
  - rewrite Hopen in Hs'. discriminate.
  - destruct Hopen as [Hopen _]. rewrite Hopen in Hs. discriminate.
Qed.

(** X2.  The AI socket is written to only while it is open, [close()]
    is called on it only while it is open, and once it is shut (closing
    or closed, the setup being over) no event makes the program send on
    it or close it again. *)
Theorem ai_socket_used_only_while_open :
  (∀ ev w data,
     In (Send ElevenLabs data) (handle ev w).2 →
     elevenLabsWs (handle ev w).1 = Some OPEN)
  ∧ (∀ ev w,
       In (Close ElevenLabs) (handle ev w).2 →
       elevenLabsWs w = Some OPEN
       ∧ elevenLabsWs (handle ev w).1 = Some CLOSING)
  ∧ (∀ w evs,
       awaiting w = false → ai_shut w = true →
       ai_shut (run evs w).1 = true
       ∧ Forall (λ a, ai_write a = false) (run evs w).2).
Proof.
  repeat split.
  - intros ev w data Hin.
    exact (ai_write_when_open ev w (Send ElevenLabs data) Hin eq_refl).
  - exact (proj1 (ai_write_when_open ev w (Close ElevenLabs) H0 eq_refl)).
  - exact (proj2 (ai_write_when_open ev w (Close ElevenLabs) H0 eq_refl)).
  - destruct (respects_run _ ai_left_alone_refl ai_left_alone_trans
                (λ _, True) (λ ev w' _, handle_ai_left_alone ev w') evs w)
      as (_ & Hs & _); auto.
    apply List.Forall_forall. auto.
  - destruct (respects_run _ ai_left_alone_refl ai_left_alone_trans
                (λ _, True) (λ ev w' _, handle_ai_left_alone ev w') evs w)
      as (_ & _ & Hq); auto.
    apply List.Forall_forall. auto.
Qed.

(** *** What reaches the telephony socket and the observers *)

Lemma twilio_send_shape (ev : event) (w : world) (data : frame) :
  In (Send Twilio data) (handle ev w).2 →
  truthy (streamSid w) = true
  ∧ (data = JSON_stringify (VObj [("event", VStr "clear");
                                  ("streamSid", streamSid w)])
     ∨ ∃ chunk,
         truthy chunk = true
         ∧ data = JSON_stringify
                    (VObj [("event", VStr "media");
                           ("streamSid", streamSid w);
                           ("media", VObj [("payload", chunk)])])).
Proof.
  destruct ev; cbn [handle]; unfold_handlers; unfold elevenLabs_open.
  all: repeat (case_match; cbn in *; simplify_eq); cbn.
  all: intros Hin; repeat destruct Hin as [Hin|Hin]; subst;
    try discriminate; try contradiction; simplify_eq.
  all: split; [assumption|].
  all: first [ left; reflexivity | right; eexists; split; [|reflexivity] ].
  all: match goal with
       | Ht : truthy (member_opt ?k ?v) = true, Hm : member ?k ?v = Some ?x
         |- truthy ?x = true =>
           rewrite (member_inv _ _ _ Hm); exact Ht
       end.
Qed.

Lemma frontend_send_shape (ev : event) (w : world) (c : conn) (data : frame) :
  In (Send (Frontend c) data) (handle ev w).2 →
  ∃ sid o speaker text,
    callSid w = VStr sid
    ∧ callClientMap w !! sid = Some c
    ∧ clients w !! c = Some o
    ∧ client_readyState o = OPEN
    ∧ (speaker = "Agent" ∨ speaker = "User")
    ∧ data = JSON_stringify (VObj [("event", VStr "transcript");
                                   ("speaker", VStr speaker);
                                   ("text", text)]).
Proof.
  destruct ev; cbn [handle]; unfold_handlers; unfold elevenLabs_open.
  all: repeat (case_match; cbn in *; simplify_eq); cbn.
  all: intros Hin; repeat destruct Hin as [Hin|Hin]; subst;
    try discriminate; try contradiction; simplify_eq.
  all: match goal with
       | Hc : callSid _ = VStr ?s,
         Ho : client_readyState <$> clients ?w !! ?c = Some OPEN |- _ =>
           destruct (clients w !! c) as [o|] eqn:Hc'; [|discriminate Ho];
           cbn in Ho; exists s, o
       end.
  all: eexists _, _; repeat split; eauto; congruence.
Qed.

Lemma handle_telephony_silent (ev : event) (w : world) :
  no_start ev → telephony_silent w (handle ev w).1 (handle ev w).2.
Proof.
  intros Hns Hs.
  destruct (handle_ids ev w Hns) as [Hsid _].
  split; [now rewrite Hsid|].
  apply List.Forall_forall. intros a Hin.
  destruct a as [[| |c] data| | | |]; try reflexivity.
  destruct (twilio_send_shape ev w data Hin) as [Ht _]. congruence.
Qed.

(** X3.  Every frame the program sends on the telephony socket is a
    clear frame or a media frame carrying a chunk, tagged with the
    [streamSid] the session holds at that moment, which is then known;
    and until a start frame arrives nothing at all is sent on the
    telephony socket, whatever else happens. *)
Theorem telephony_frames_carry_known_streamSid :
  (∀ ev w data,
     In (Send Twilio data) (handle ev w).2 →
     truthy (streamSid w) = true
     ∧ (data = JSON_stringify (VObj [("event", VStr "clear");
                                     ("streamSid", streamSid w)])
        ∨ ∃ chunk,
            truthy chunk = true
            ∧ data = JSON_stringify
                       (VObj [("event", VStr "media");
                              ("streamSid", streamSid w);
                              ("media", VObj [("payload", chunk)])])))
  ∧ (∀ w evs,
       truthy (streamSid w) = false → Forall no_start evs →
       Forall (λ a, twilio_send a = false) (run evs w).2).
Proof.
  split; [exact twilio_send_shape|].
  intros w evs Hs Hevs.
  now destruct (respects_run _ telephony_silent_refl telephony_silent_trans
                  no_start handle_telephony_silent evs w Hevs Hs).
Qed.

(** X4.  Whatever is sent to an observer is a transcript event, sent to
    the socket registered under the [callSid] the session holds, that
    socket being open; a session whose [callSid] is not a string, as
    before its start event, sends nothing to any observer. *)
Theorem observer_frames_are_transcripts_of_the_call :
  (∀ ev w c data,
     In (Send (Frontend c) data) (handle ev w).2 →
     ∃ sid o speaker text,
       callSid w = VStr sid
       ∧ callClientMap w !! sid = Some c
       ∧ clients w !! c = Some o
       ∧ client_readyState o = OPEN
       ∧ (speaker = "Agent" ∨ speaker = "User")
       ∧ data = JSON_stringify (VObj [("event", VStr "transcript");
                                      ("speaker", VStr speaker);
                                      ("text", text)]))
  ∧ (∀ ev w,
       (∀ sid, callSid w ≠ VStr sid) →
       Forall (λ a, to_frontend a = false) (handle ev w).2).
Proof.
  split; [exact frontend_send_shape|].
  intros ev w Hsid. apply List.Forall_forall. intros a Hin.
  destruct a as [[| |c] data| | | |]; try reflexivity.
  destruct (frontend_send_shape ev w c data Hin) as (sid & _ & _ & _ & E & _).
  now destruct (Hsid sid).
Qed.

(** *** What each handler leaves alone *)

Ltac reports_base := split; [reflexivity | repeat constructor].

Lemma elevenLabsWs_on_message_reports data :
  respects only_reports (elevenLabsWs_on_message data).
Proof.
  unfold elevenLabsWs_on_message, sendToFrontend, console.
  respects_with only_reports_refl only_reports_trans reports_base.
Qed.

(** X5.  A message from the AI never changes the state (identifiers,
    sockets, registry) and never makes the program write to the AI
    socket, close a socket or start a setup: it is translated or logged,
    nothing more. *)
Theorem ai_messages_change_nothing (data : frame) (w : world) :
  (exec (elevenLabsWs_on_message data) w).1 = w
  ∧ Forall (λ a, ai_write a = false ∧ starts_or_ends_leg a = false)
           (exec (elevenLabsWs_on_message data) w).2.
Proof.
  exact (respects_exec _ only_reports_trans _ w w []
           (elevenLabsWs_on_message_reports data) (only_reports_refl w)).
Qed.

Ltac towards_ai_base := repeat split; repeat constructor.

Lemma ws_on_message_towards_ai msg :
  respects towards_ai_only (ws_on_message msg).
Proof.
  unfold ws_on_message, elevenLabsWs_close, console.
  respects_with towards_ai_only_refl towards_ai_only_trans towards_ai_base.
Qed.

(** X6.  A telephony frame, whatever it holds, leaves the observer
    registry, the observers' sockets and the telephony socket as they
    were, and sends nothing on the telephony socket or to an observer:
    its only effects outside the session variables are on the AI socket
    and the console. *)
Theorem telephony_frames_act_on_ai_leg_only (msg : frame) (w : world) :
  callClientMap (handle (OnTwilioMessage msg) w).1 = callClientMap w
  ∧ clients (handle (OnTwilioMessage msg) w).1 = clients w
  ∧ ws (handle (OnTwilioMessage msg) w).1 = ws w
  ∧ awaiting (handle (OnTwilioMessage msg) w).1 = awaiting w
  ∧ Forall (λ a, twilio_send a = false ∧ to_frontend a = false
                 ∧ starts_or_ends_leg a = false)
           (handle (OnTwilioMessage msg) w).2.
Proof.
  exact (respects_exec _ towards_ai_only_trans _ w w []
           (ws_on_message_towards_ai msg) (towards_ai_only_refl w)).
Qed.

(** *** The stop event *)

Lemma stop_frame_members (message : value) :
  member_opt "event" message = VStr "stop" →
  member "event" message = Some (VStr "stop").
Proof.
  destruct message; cbn; intros E; try discriminate. now rewrite E.
Qed.

(** X7.  A stop event closes the AI socket when it is open, and only
    then; the close of the telephony socket that follows finds the AI
    socket closing and does not call [close()] a second time. *)
Theorem stop_closes_ai_socket_once (w : world) (msg : frame)
    (message : value) :
  JSON_parse msg = Some message →
  member_opt "event" message = VStr "stop" →
  (elevenLabsWs w = Some OPEN →
     handle (OnTwilioMessage msg) w
     = (set_elevenLabsWs (Some CLOSING) w, [Close ElevenLabs])
     ∧ (run [OnTwilioMessage msg; OnTwilioClose] w).2
       = [Close ElevenLabs; Console (TwilioStreamClosed (callSid w))])
  ∧ (elevenLabsWs w ≠ Some OPEN →
       handle (OnTwilioMessage msg) w = (w, [])).
Proof.
  intros Hp He. pose proof (stop_frame_members _ He) as Hev.
  split.
  - intros Ho.
    assert (E : handle (OnTwilioMessage msg) w
                = (set_elevenLabsWs (Some CLOSING) w, [Close ElevenLabs])).
    { cbn [handle]. unfold_handlers. unfold elevenLabs_open.
      rewrite Hp, Hev. cbn. rewrite Ho. reflexivity. }
    split; [exact E|].
    rewrite run_cons, E. reflexivity.
  - intros Ho. cbn [handle]. unfold_handlers. unfold elevenLabs_open.
    rewrite Hp, Hev. cbn.
    destruct (elevenLabsWs w) as [[| | |]|]; try reflexivity.
    now destruct Ho.
Qed.

(** *** The initial configuration *)

Lemma sendToFrontend_session data : respects same_session (sendToFrontend data).
Proof.
  unfold sendToFrontend, console.
  respects_with same_session_refl same_session_trans ltac:(repeat split).
Qed.

Lemma ws_on_message_session msg :
  is_start msg = false → respects same_session (ws_on_message msg).
Proof.
  intros Hns.
  unfold ws_on_message, elevenLabsWs_close, console.
  apply (respects_try_catch _ same_session_trans);
    [|intros;
      respects_with same_session_refl same_session_trans ltac:(repeat split)].
  apply (respects_bind_lift _ same_session_refl). intros message Hp.
  apply (respects_bind_lift _ same_session_refl). intros event He.
  unfold is_start in Hns. rewrite Hp in Hns.
  apply member_inv in He. subst event. rewrite Hns.
  respects_with same_session_refl same_session_trans ltac:(repeat split).
Qed.

Lemma handle_session (ev : event) (w : world) :
  no_start ev → same_session w (handle ev w).1 (handle ev w).2.
Proof.
  intros Hns.
  assert (G : ∀ m w', respects same_session m → same_session w w' [] →
              same_session w (exec m w').1 (exec m w').2).
  { intros m w' Hm H0.
    apply (respects_exec _ same_session_trans m w w' [] Hm H0). }
  destruct ev; cbn [handle]; repeat case_match;
    try apply same_session_refl; apply G; try (repeat split; reflexivity).
  all: try (apply ws_on_message_session; now apply Hns).
  all: unfold elevenLabsWs_on_message, sendToFrontend,
         setupElevenLabs_resume, getSignedUrl, elevenLabsWs_on_open,
         elevenLabsWs_on_close, elevenLabsWs_on_error, ws_on_close,
         ws_on_error, elevenLabsWs_close, transcription_stream,
         clientWs_on_close, clientWs_on_error, console;
       respects_with same_session_refl same_session_trans
         ltac:(repeat split).
Qed.

Lemma open_sends_config (w : world) :
  elevenLabsWs w = Some CONNECTING →
  (handle OnElevenLabsOpen w).2
  = [Send ElevenLabs
       (JSON_stringify
          (initial_config
             (js_or (member_opt "prompt" (customParameters w))
                    (VStr "you are gary from the phone store"))
             (js_or (member_opt "first_message" (customParameters w))
                    (VStr "Hey, how can I help you today?"))))].
Proof. intros Ho. cbn [handle]. rewrite Ho. reflexivity. Qed.

(** X8.  When the AI socket opens, the first thing sent on it is the
    initialization message.  It carries the prompt and first message of
    the start event's custom parameters when both are present; and when
    the socket opens before any start event has arrived, it carries the
    two fixed defaults, whatever a later start event brings. *)
Theorem initial_config_overrides_and_defaults :
  (∀ w prompt first_message,
     elevenLabsWs w = Some CONNECTING →
     member_opt "prompt" (customParameters w) = prompt →
     member_opt "first_message" (customParameters w) = first_message →
     truthy prompt = true → truthy first_message = true →
     (handle OnElevenLabsOpen w).2
     = [Send ElevenLabs (JSON_stringify (initial_config prompt first_message))])
  ∧ (∀ evs,
       Forall no_start evs →
       elevenLabsWs (run evs accepted.1).1 = Some CONNECTING →
       (handle OnElevenLabsOpen (run evs accepted.1).1).2
       = [Send ElevenLabs
            (JSON_stringify
               (initial_config (VStr "you are gary from the phone store")
                               (VStr "Hey, how can I help you today?")))]).
Proof.
  split.
  - intros w prompt first_message Ho Hp Hm Htp Htm.
    rewrite (open_sends_config w Ho). unfold js_or.
    now rewrite Hp, Hm, Htp, Htm.
  - intros evs Hevs Ho.
    rewrite (open_sends_config _ Ho).
    destruct (respects_run _ same_session_refl same_session_trans no_start
                handle_session evs accepted.1 Hevs) as (_ & _ & Hcp).
    rewrite Hcp. reflexivity.
Qed.

(** *** The signed URL and the AI socket *)

(** X9.  [getSignedUrl] returns a value exactly when the response is ok
    and its body is JSON other than [null]; the value is the body's
    [signed_url], [undefined] when the body has none, without any error.
    In every other case it logs once and rethrows.  It never changes the
    state. *)
Theorem getSignedUrl_outcomes (r : response) (w : world) :
  (∀ url,
     (getSignedUrl r w).1.1 = Normal url
     ↔ ∃ statusText data,
         r = Response true statusText (Some data)
         ∧ member "signed_url" data = Some url)
  ∧ (getSignedUrl r w).1.2 = w
  ∧ match (getSignedUrl r w).1.1 with
    | Normal _ => (getSignedUrl r w).2 = []
    | Thrown e => (getSignedUrl r w).2 = [Console (SignedUrlError e)]
    end
  ∧ (∀ statusText fields,
       own "signed_url" fields = VUndefined →
       getSignedUrl (Response true statusText (Some (VObj fields))) w
       = (Normal VUndefined, w, [])).
Proof.
  repeat split.
  - unfold_handlers.
    destruct r as [|[|] statusText [data|]]; cbn; try discriminate.
    destruct (member "signed_url" data) as [u|] eqn:Hu; cbn;
      try discriminate.
    intros E. inversion E; subst. eauto.
  - intros (statusText & data & -> & Hu). unfold_handlers. cbn.
    now rewrite Hu.
  - unfold_handlers.
    destruct r as [|[|] statusText [data|]]; cbn; try reflexivity.
    destruct (member "signed_url" data); reflexivity.
  - unfold_handlers.
    destruct r as [|[|] statusText [data|]]; cbn; try reflexivity.
    destruct (member "signed_url" data); reflexivity.
  - intros statusText fields Hu. unfold_handlers. cbn. now rewrite Hu.
Qed.

Ltac untouched_base := split; [reflexivity | repeat constructor].

Lemma quiet_makes_no_socket (out : list action) :
  Forall (λ a, starts_or_ends_leg a = false) out →
  sockets_made out = 0 ∧ Forall (λ a, a ≠ Fetch) out.
Proof.
  induction 1 as [|a out Ha _ [IHn IHf]]; [split; [reflexivity|constructor]|].
  unfold sockets_made in *. cbn.
  destruct a as [p f|p| | |l]; cbn in *; try discriminate;
    (split; [exact IHn | constructor; [discriminate | exact IHf]]).
Qed.

Lemma handle_setup_spent (ev : event) (w : world) :
  setup_spent w (handle ev w).1 (handle ev w).2.
Proof.
  assert (G : ∀ m w', respects setup_untouched m → setup_untouched w w' [] →
              setup_spent w (exec m w').1 (exec m w').2).
  { intros m w' Hm H0.
    destruct (respects_exec _ setup_untouched_trans m w w' [] Hm H0)
      as [Ha Hq].
    cbn [app] in Hq.
    destruct (quiet_makes_no_socket _ Hq) as [Hn Hf].
    split; [|exact Hf]. rewrite Hn.
    unfold setup_budget. rewrite Ha. lia. }
  destruct ev; cbn [handle].
  1: { unfold setup_spent, setup_budget. destruct (awaiting w) eqn:Ha.
       - destruct (setup_outcome r (set_awaiting false w))
           as [[url E] | (out & e & E & _ & Hq)]; rewrite E; cbn [fst snd].
         + split; [cbn; lia | repeat constructor; discriminate].
         + destruct (quiet_makes_no_socket _ Hq) as [Hn Hf].
           split; [rewrite Hn; cbn; lia | exact Hf].
       - cbn. rewrite Ha. split; [lia | constructor]. }
  all: repeat case_match;
    first [ apply setup_spent_refl
          | apply G; [|split; [reflexivity | constructor]] ].
  all: unfold elevenLabsWs_on_message, sendToFrontend, ws_on_message,
         elevenLabsWs_on_open, elevenLabsWs_on_close, elevenLabsWs_on_error,
         ws_on_close, ws_on_error, elevenLabsWs_close, transcription_stream,
         clientWs_on_close, clientWs_on_error, console;
       respects_with setup_untouched_refl setup_untouched_trans
         untouched_base.
Qed.

(** X10.  A telephony connection asks for one signed URL, when it is
    accepted, and constructs at most one AI socket: over any sequence of
    events no further request leaves and no second socket is made. *)
Theorem one_fetch_and_at_most_one_ai_socket (evs : list event) :
  accepted.2 = [Console TwilioConnected; Fetch]
  ∧ (sockets_made (run evs accepted.1).2 ≤ 1)%nat
  ∧ Forall (λ a, a ≠ Fetch) (run evs accepted.1).2
  ∧ (∀ w, awaiting w = false → sockets_made (run evs w).2 = 0).
Proof.
  pose proof (respects_run _ setup_spent_refl setup_spent_trans (λ _, True)
                (λ ev w _, handle_setup_spent ev w) evs) as Hrun.
  assert (Hall : Forall (λ _ : event, True) evs)
    by (apply List.Forall_forall; auto).
  repeat split.
  - destruct (Hrun accepted.1 Hall) as [Hn _].
    change (setup_budget accepted.1) with 1 in Hn. lia.
  - now destruct (Hrun accepted.1 Hall).
  - intros w Ha. destruct (Hrun w Hall) as [Hn _].
    assert (Hb : setup_budget w = 0) by (unfold setup_budget; now rewrite Ha).
    rewrite Hb in Hn. lia.
Qed.

(** *** The registry *)

(** X11.  Attaching an observer for a [callSid] makes it the one that
    receives the transcripts of the session holding that [callSid],
    whoever was registered before; once it has closed, the same
    transcript only produces the warning. *)
Theorem newest_observer_receives_transcripts (w : world) (sid : string)
    (c : conn) (data : frame) (message : value) :
  callSid w = VStr sid →
  JSON_parse data = Some message →
  member_opt "type" message = VStr "user_transcript" →
  (run [OnFrontendConnect sid c; OnElevenLabsMessage data]
       (set_elevenLabsWs (Some OPEN) w)).2
  = [Console (FrontendConnected sid);
     Send (Frontend c)
       (JSON_stringify
          (VObj [("event", VStr "transcript");
                 ("speaker", VStr "User");
                 ("text",
                   member_opt "user_transcript"
                     (member_opt "user_transcription_event" message))]))]
  ∧ (run [OnFrontendConnect sid c; OnFrontendClose c;
          OnElevenLabsMessage data]
         (set_elevenLabsWs (Some OPEN) w)).2
    = [Console (FrontendConnected sid);
       Console (FrontendDisconnected sid);
       Console (NoFrontendClient (VStr sid))].
Proof.
  intros Hs Hp Hty.
  destruct (typed_message_members _ _ Hty) as [Htype Hm].
  set (w0 := set_elevenLabsWs (Some OPEN) w).
  assert (Hs0 : callSid w0 = VStr sid) by exact Hs.
  split.
  - rewrite !run_cons, observer_attaches. cbn [run fst snd app].
    set (w1 := set_callClientMap _ _).
    assert (E : exec (elevenLabsWs_on_message data) w1
                = (w1, [Send (Frontend c)
                          (JSON_stringify
                             (VObj [("event", VStr "transcript");
                                    ("speaker", VStr "User");
                                    ("text",
                                      member_opt "user_transcript"
                                        (member_opt "user_transcription_event"
                                           message))]))])).
    { unfold exec, elevenLabsWs_on_message, try_catch, lift, mbind, M_bind,
        mret, M_ret.
      rewrite Hp, Htype, !Hm. cbn -[sendToFrontend].
      erewrite (sendToFrontend_delivers w1 sid c (Observer sid OPEN));
        [reflexivity | exact Hs0 | apply lookup_insert_eq
        | apply lookup_insert_eq | reflexivity]. }
    cbn [handle]. change (elevenLabsWs w1) with (Some OPEN). cbn match.
    rewrite E. reflexivity.
  - rewrite !run_cons, observer_attaches. cbn [run fst snd app].
    set (w1 := set_callClientMap _ _).
    rewrite (observer_closes c (Observer sid OPEN) w1)
      by apply lookup_insert_eq.
    cbn [fst snd route_callSid].
    set (w2 := set_callClientMap _ _).
    assert (E : exec (elevenLabsWs_on_message data) w2
                = (w2, [Console (NoFrontendClient (VStr sid))])).
    { unfold exec, elevenLabsWs_on_message, try_catch, lift, mbind, M_bind,
        mret, M_ret.
      rewrite Hp, Htype, !Hm. cbn -[sendToFrontend].
      rewrite (sendToFrontend_unregistered w2 sid);
        [reflexivity | exact Hs0 | apply lookup_delete_eq]. }
    cbn [handle]. change (elevenLabsWs w2) with (Some OPEN). cbn match.
    rewrite E. reflexivity.
Qed.

(** X12.  Attaching, closing or failing an observer touches the registry
    entry of its own [callSid] only: the entry of every other [callSid]
    is what it was. *)
Theorem registry_touches_one_callSid (w : world) (sid other : string)
    (c : conn) :
  other ≠ sid →
  callClientMap (handle (OnFrontendConnect sid c) w).1 !! other
  = callClientMap w !! other
  ∧ (route_callSid <$> clients w !! c = Some sid →
       callClientMap (handle (OnFrontendClose c) w).1 !! other
       = callClientMap w !! other
       ∧ callClientMap (handle (OnFrontendError c) w).1 !! other
         = callClientMap w !! other).
Proof.
  intros Hne. split.
  - rewrite observer_attaches. cbn. now apply lookup_insert_ne.
  - intros Hc. destruct (clients w !! c) as [o|] eqn:Ho; [|discriminate].
    cbn in Hc. injection Hc as Hc.
    rewrite (observer_closes c o w Ho), (observer_errors c o w Ho). cbn.
    rewrite Hc. split; now apply lookup_delete_ne.
Qed.

(** *** Edge cases of the translation *)

(** X13.  An agent response or user transcript whose event object or
    text is absent is still pushed to the observer, as a transcript
    event without a [text] property. *)
Theorem transcript_without_text (w : world) (sid : string) (c : conn)
    (o : observer) (data : frame) (message : value) :
  callSid w = VStr sid →
  callClientMap w !! sid = Some c →
  clients w !! c = Some o →
  client_readyState o = OPEN →
  JSON_parse data = Some message →
  (member_opt "type" message = VStr "agent_response" →
   member_opt "agent_response"
     (member_opt "agent_response_event" message) = VUndefined →
   exec (elevenLabsWs_on_message data) w
   = (w, [Send (Frontend c)
            (Text (VObj [("event", VStr "transcript");
                         ("speaker", VStr "Agent")]))]))
  ∧ (member_opt "type" message = VStr "user_transcript" →
     member_opt "user_transcript"
       (member_opt "user_transcription_event" message) = VUndefined →
     exec (elevenLabsWs_on_message data) w
     = (w, [Send (Frontend c)
              (Text (VObj [("event", VStr "transcript");
                           ("speaker", VStr "User")]))])).
Proof.
  intros Hs Hc Ho Hr Hp.
  split; intros Hty Htext;
    destruct (typed_message_members _ _ Hty) as [Htype Hm];
    unfold exec, elevenLabsWs_on_message, try_catch, lift, mbind, M_bind,
      mret, M_ret;
    rewrite Hp, Htype, !Hm; cbn -[sendToFrontend];
    rewrite Htext;
    erewrite sendToFrontend_delivers by eassumption; reflexivity.
Qed.

(** X14.  What the bridge forwards to the AI is canonical base64:
    received again as a payload, a forwarded chunk is forwarded
    unchanged. *)
Theorem forwarded_chunk_is_a_fixed_point (w : world) (payload : string) :
  elevenLabs_open w = true →
  exec (ws_on_message
          (media_frame (VStr (Base64.encode (Base64.decode payload))))) w
  = (w, [Send ElevenLabs
           (Text (VObj [("user_audio_chunk",
                          VStr (Base64.encode (Base64.decode payload)))]))]).
Proof.
  intros Ho.
  rewrite (media_forwarded w
             (media_frame (VStr (Base64.encode (Base64.decode payload))))
             (VObj [("event", VStr "media");
                    ("media",
                      VObj [("payload",
                              VStr (Base64.encode (Base64.decode payload)))])])
             (Base64.encode (Base64.decode payload)) eq_refl eq_refl eq_refl Ho).
  now rewrite Base64Facts.decode_encode.
Qed.

End Discipline.

(** * Further properties of the server *)

(** ** Startup *)

Lemma env_missing_false (env : gmap string string) (k : string) :
  env_missing env k = false ↔ ∃ s, env !! k = Some s ∧ s ≠ "".
Proof.
  unfold env_missing. destruct (env !! k) as [s|].
  - destruct (String.eqb_spec s ""); split.
    + discriminate.
    + intros (s' & E & Hs). congruence.
    + intros _. eauto.
    + reflexivity.
  - split; [discriminate | intros (s & E & _); discriminate].
Qed.

(** X15.  The module goes past its environment check exactly when the
    five variables are all set to non-empty strings: a variable set to
    the empty string counts as missing. *)
Theorem startup_needs_every_variable (env : gmap string string) :
  check_env env = None
  ↔ ∀ k, In k ["ELEVENLABS_API_KEY"; "ELEVENLABS_AGENT_ID";
               "TWILIO_ACCOUNT_SID"; "TWILIO_AUTH_TOKEN";
               "TWILIO_PHONE_NUMBER"] →
         ∃ s, env !! k = Some s ∧ s ≠ "".
Proof.
  unfold check_env. split.
  - intros Hc k Hk.
    destruct (env_missing env "ELEVENLABS_API_KEY") eqn:E1;
      [discriminate|].
    destruct (env_missing env "ELEVENLABS_AGENT_ID") eqn:E2;
      [discriminate|].
    destruct (env_missing env "TWILIO_ACCOUNT_SID") eqn:E3;
      [discriminate|].
    destruct (env_missing env "TWILIO_AUTH_TOKEN") eqn:E4;
      [discriminate|].
    destruct (env_missing env "TWILIO_PHONE_NUMBER") eqn:E5;
      [discriminate|].
    cbn in Hk.
    destruct Hk as [<-|[<-|[<-|[<-|[<-|[]]]]]]; now apply env_missing_false.
  - intros Hall.
    assert (Hk : ∀ k, In k ["ELEVENLABS_API_KEY"; "ELEVENLABS_AGENT_ID";
                            "TWILIO_ACCOUNT_SID"; "TWILIO_AUTH_TOKEN";
                            "TWILIO_PHONE_NUMBER"] →
                      env_missing env k = false).
    { intros k Hin. apply env_missing_false. auto. }
    rewrite !Hk by (cbn; tauto). reflexivity.
Qed.

(** ** The callback address *)

Module URIFacts.
Import URI.

Local Open Scope N_scope.

Lemma byte_checks_all :
  forallb byte_checks (List.map N.of_nat (seq 0 256)) = true.
Proof. vm_compute. reflexivity. Qed.

Lemma byte_checks_ascii (c : ascii) : byte_checks (N_of_ascii c) = true.
Proof.
  pose proof byte_checks_all as Hall.
  rewrite forallb_forall in Hall.
  apply Hall, in_map_iff.
  exists (N.to_nat (N_of_ascii c)). split; [apply N2Nat.id|].
  apply in_seq. pose proof (N_ascii_bounded c). lia.
Qed.

Lemma percent_reserved : unreserved "%"%char = false.
Proof. reflexivity. Qed.

(** Reading an encoded text back gives the text. *)
Lemma unescape_encode (s : string) : unescape (encodeURIComponent s) = s.
Proof.
  induction s as [|c s IH]; [reflexivity|].
  cbn [encodeURIComponent].
  destruct (unreserved c) eqn:Hu.
  - cbn [unescape].
    destruct (Ascii.eqb_spec c "%"%char) as [->|_]; [discriminate Hu|].
    now rewrite IH.
  - pose proof (byte_checks_ascii c) as Hc. unfold byte_checks in Hc.
    apply andb_prop in Hc as [Hc _]. apply andb_prop in Hc as [Hc _].
    apply andb_prop in Hc as [Hc _]. apply N.eqb_eq in Hc.
    cbn [unescape Ascii.eqb Bool.eqb]. rewrite Hc, IH.
    now rewrite ascii_N_embedding.
Qed.

Lemma encode_safe (s : string) :
  all_chars safe (encodeURIComponent s) = true.
Proof.
  induction s as [|c s IH]; [reflexivity|].
  cbn [encodeURIComponent].
  destruct (unreserved c) eqn:Hu.
  - cbn [all_chars]. unfold safe at 1. now rewrite Hu, IH.
  - pose proof (byte_checks_ascii c) as Hc. unfold byte_checks in Hc.
    apply andb_prop in Hc as [Hc _]. apply andb_prop in Hc as [Hc H2].
    apply andb_prop in Hc as [_ H1].
    cbn [all_chars]. unfold safe at 1 2 3. rewrite H1, H2, IH. reflexivity.
Qed.

End URIFacts.

Lemma append_inv_head (s a b : string) : s +:+ a = s +:+ b → a = b.
Proof.
  induction s as [|c s IH]; cbn; [auto|].
  intros E. injection E as E. auto.
Qed.

(** Two texts free of a separator, each followed by it, are told apart
    by it. *)
Lemma separator_splits (sep : ascii) (p : ascii → bool) (a b x y : string) :
  p sep = false →
  all_chars p a = true → all_chars p b = true →
  a +:+ String sep x = b +:+ String sep y → a = b ∧ x = y.
Proof.
  intros Hsep. revert b.
  induction a as [|c a IH]; intros [|d b] Ha Hb E; cbn in *.
  - injection E as E. auto.
  - injection E as E1 E2. subst d.
    apply andb_prop in Hb as [Hd _]. congruence.
  - injection E as E1 E2. subst c.
    apply andb_prop in Ha as [Hc _]. congruence.
  - injection E as E1 E2. subst d.
    apply andb_prop in Ha as [_ Ha]. apply andb_prop in Hb as [_ Hb].
    destruct (IH b Ha Hb E2) as [-> ->]. auto.
Qed.

Section OutboundCallFacts.

Variable Number_toString : spec_float → string.

(** X16.  [encodeURIComponent] writes unreserved characters and [%]
    escapes only, so no [&], [=], [#], [?], [/], [+], double quote,
    space or angle bracket of the text survives; and reading the escapes
    back gives the text, so different texts are encoded differently. *)
Theorem encodeURIComponent_safe_and_faithful (s t : string) :
  all_chars URI.safe (URI.encodeURIComponent s) = true
  ∧ URI.unescape (URI.encodeURIComponent s) = s
  ∧ (URI.encodeURIComponent s = URI.encodeURIComponent t → s = t)
  ∧ forallb (λ c, negb (URI.safe c))
            ["&"; "="; "#"; "?"; "/"; "+"; ascii_of_N 34; " "; "<"; ">"]%char
    = true.
Proof.
  repeat split.
  - apply URIFacts.encode_safe.
  - apply URIFacts.unescape_encode.
  - intros E.
    rewrite <- (URIFacts.unescape_encode s), <- (URIFacts.unescape_encode t).
    now rewrite E.
Qed.

(** X17.  The callback address handed to the telephony provider keeps
    the prompt and the first message apart: for a given host, two
    addresses are equal only if they carry the same prompt text and the
    same first-message text. *)
Theorem callback_url_determines_prompt_and_message
    (host prompt first_message prompt' first_message' : value) :
  twiml_url Number_toString host prompt first_message
  = twiml_url Number_toString host prompt' first_message' →
  ToString Number_toString prompt = ToString Number_toString prompt'
  ∧ ToString Number_toString first_message
    = ToString Number_toString first_message'.
Proof.
  unfold twiml_url. intros E.
  apply (append_inv_head "https://") in E.
  apply append_inv_head in E.
  apply (append_inv_head "/outbound-call-twiml?prompt=") in E.
  change ("&first_message=" +:+ ?x)
    with (String "&"%char ("first_message=" +:+ x)) in E.
  apply (separator_splits "&"%char URI.safe) in E;
    [|reflexivity | apply URIFacts.encode_safe..].
  destruct E as [E1 E2].
  apply (append_inv_head "first_message=") in E2.
  split.
  - rewrite <- (URIFacts.unescape_encode (ToString _ prompt)),
      <- (URIFacts.unescape_encode (ToString _ prompt')).
    now rewrite E1.
  - rewrite <- (URIFacts.unescape_encode (ToString _ first_message)),
      <- (URIFacts.unescape_encode (ToString _ first_message')).
    now rewrite E2.
Qed.

(** ** The outbound-call route *)


End OutboundCallFacts.

(** * Further concrete runs *)

Lemma ai_socket_used_only_while_open_witness :
  awaiting stopped = false ∧ ai_shut stopped = true
  ∧ Forall (λ a, ai_write a = false)
           (@run strict_runtime
              [OnTwilioMessage (media_frame (VStr "QUJD")); OnTwilioClose]
              stopped).2.
Proof.
  split; [reflexivity|]. split; [reflexivity|].
  exact (proj2 (proj2 (proj2 (@ai_socket_used_only_while_open strict_runtime))
                  stopped
                  [OnTwilioMessage (media_frame (VStr "QUJD")); OnTwilioClose]
                  eq_refl eq_refl)).
Defined.

Lemma telephony_frames_carry_known_streamSid_witness :
  truthy (streamSid (@accepted strict_runtime).1) = false
  ∧ Forall (λ a, twilio_send a = false)
           (@run strict_runtime
              [OnSignedUrl
                 (signed_url_response "wss://api.elevenlabs.io/v1/convai");
               OnElevenLabsOpen;
               OnElevenLabsMessage (audio_message (VStr "QUJD"))]
              (@accepted strict_runtime).1).2.
Proof.
  split; [reflexivity|].
  apply (proj2 (@telephony_frames_carry_known_streamSid strict_runtime));
    [reflexivity|].
  repeat constructor; intros msg E; discriminate E.
Defined.

Lemma observer_frames_are_transcripts_of_the_call_witness :
  callSid (@accepted strict_runtime).1 = VNull
  ∧ Forall (λ a, to_frontend a = false)
           (@handle strict_runtime
              (OnFrontendConnect "CA1" 7) (@accepted strict_runtime).1).2.
Proof.
  split; [reflexivity|].
  apply (proj2 (@observer_frames_are_transcripts_of_the_call strict_runtime)).
  intros sid E. discriminate E.
Defined.

Lemma stop_closes_ai_socket_once_witness :
  elevenLabsWs established = Some OPEN
  ∧ (@run strict_runtime [OnTwilioMessage stop_frame; OnTwilioClose]
       established).2
    = [Close ElevenLabs; Console (TwilioStreamClosed (VStr "CA1"))].
Proof.
  split; [reflexivity|].
  exact (proj2 (proj1 (@stop_closes_ai_socket_once strict_runtime established
                         stop_frame (VObj [("event", VStr "stop")])
                         eq_refl eq_refl)
                  eq_refl)).
Defined.

Lemma initial_config_overrides_and_defaults_witness :
  elevenLabsWs connecting = Some CONNECTING
  ∧ (@handle strict_runtime OnElevenLabsOpen connecting).2
    = [Send ElevenLabs
         (Text (initial_config (VStr "be brief") (VStr "Good morning")))].
Proof.
  split; [reflexivity|].
  exact (proj1 (@initial_config_overrides_and_defaults strict_runtime)
           connecting (VStr "be brief") (VStr "Good morning")
           eq_refl eq_refl eq_refl eq_refl eq_refl).
Defined.

Lemma getSignedUrl_outcomes_witness :
  (getSignedUrl (signed_url_response "wss://api.elevenlabs.io/v1/convai")
     boot).1.1
  = Normal (VStr "wss://api.elevenlabs.io/v1/convai").
Proof.
  apply (proj1 (getSignedUrl_outcomes
                  (signed_url_response "wss://api.elevenlabs.io/v1/convai")
                  boot)).
  exists "OK", (VObj [("signed_url", VStr "wss://api.elevenlabs.io/v1/convai")]).
  split; reflexivity.
Defined.

Lemma one_fetch_and_at_most_one_ai_socket_witness :
  awaiting established = false
  ∧ sockets_made
      (@run strict_runtime
         [OnSignedUrl (signed_url_response "wss://api.elevenlabs.io/v1/convai");
          OnElevenLabsClose]
         established).2
    = 0.
Proof.
  split; [reflexivity|].
  exact (proj2 (proj2 (proj2
           (@one_fetch_and_at_most_one_ai_socket strict_runtime
              [OnSignedUrl
                 (signed_url_response "wss://api.elevenlabs.io/v1/convai");
               OnElevenLabsClose])))
           established eq_refl).
Defined.

Lemma newest_observer_receives_transcripts_witness :
  callSid observed = VStr "CA1"
  ∧ (@run strict_runtime
       [OnFrontendConnect "CA1" 8;
        OnElevenLabsMessage (user_transcript_message (VStr "Hello"))]
       (set_elevenLabsWs (Some OPEN) observed)).2
    = [Console (FrontendConnected "CA1");
       Send (Frontend 8)
         (Text (VObj [("event", VStr "transcript");
                      ("speaker", VStr "User");
                      ("text", VStr "Hello")]))].
Proof.
  split; [reflexivity|].
  exact (proj1 (@newest_observer_receives_transcripts strict_runtime observed
                  "CA1" 8 (user_transcript_message (VStr "Hello"))
                  (VObj [("type", VStr "user_transcript");
                         ("user_transcription_event",
                           VObj [("user_transcript", VStr "Hello")])])
                  eq_refl eq_refl eq_refl)).
Defined.

Lemma registry_touches_one_callSid_witness :
  "CA1" ≠ "CA2"
  ∧ callClientMap (@handle strict_runtime (OnFrontendConnect "CA2" 9)
                     observed).1 !! "CA1"
    = callClientMap observed !! "CA1".
Proof.
  assert (Hne : "CA1" ≠ "CA2") by discriminate.
  split; [exact Hne|].
  exact (proj1 (@registry_touches_one_callSid strict_runtime observed
                  "CA2" "CA1" 9 Hne)).
Defined.

Lemma transcript_without_text_witness :
  callClientMap observed !! "CA1" = Some 7
  ∧ exec (elevenLabsWs_on_message (Text (VObj [("type", VStr "agent_response")])))
         observed
    = (observed,
       [Send (Frontend 7)
          (Text (VObj [("event", VStr "transcript");
                       ("speaker", VStr "Agent")]))]).
Proof.
  split; [reflexivity|].
  exact (proj1 (transcript_without_text observed "CA1" 7 (Observer "CA1" OPEN)
                  (Text (VObj [("type", VStr "agent_response")]))
                  (VObj [("type", VStr "agent_response")])
                  eq_refl eq_refl eq_refl eq_refl eq_refl)
           eq_refl eq_refl).
Defined.

Lemma forwarded_chunk_is_a_fixed_point_witness :
  elevenLabs_open established = true
  ∧ @exec (@ws_on_message strict_runtime (media_frame (VStr "QUJDQUJD")))
          established
    = (established,
       [Send ElevenLabs (Text (VObj [("user_audio_chunk", VStr "QUJDQUJD")]))]).
Proof.
  split; [reflexivity|].
  exact (@forwarded_chunk_is_a_fixed_point strict_runtime established
           "QUJD QUJD" eq_refl).
Defined.

Lemma startup_needs_every_variable_witness :
  check_env full_env = None
  ∧ ∃ s, full_env !! "TWILIO_AUTH_TOKEN" = Some s ∧ s ≠ "".
Proof.
  assert (E : check_env full_env = None) by (vm_compute; reflexivity).
  split; [exact E|].
  apply (proj1 (startup_needs_every_variable full_env) E).
  cbn. tauto.
Defined.

Lemma encodeURIComponent_safe_and_faithful_witness :
  URI.encodeURIComponent "a&b=c d" = "a%26b%3Dc%20d"
  ∧ "a&b=c d" = "a&b=c d".
Proof.
  split; [reflexivity|].
  exact (proj1 (proj2 (proj2
           (encodeURIComponent_safe_and_faithful "a&b=c d" "a&b=c d")))
           eq_refl).
Defined.

Lemma callback_url_determines_prompt_and_message_witness :
  twiml_url (λ _, "0") (VStr "example.org") (VStr "be brief&first_message=x")
            VUndefined
  = "https://example.org/outbound-call-twiml?prompt=be%20brief%26first_message%3Dx&first_message=undefined"
  ∧ ToString (λ _, "0") (VStr "be brief&first_message=x")
    = ToString (λ _, "0") (VStr "be brief&first_message=x").
Proof.
  split; [reflexivity|].
  exact (proj1 (callback_url_determines_prompt_and_message (λ _, "0")
                  (VStr "example.org") (VStr "be brief&first_message=x")
                  VUndefined (VStr "be brief&first_message=x") VUndefined
                  eq_refl)).
Defined.
